(** * A cluster reporter: shallow embedding of [main.go] and its properties

    The program polls a Kubernetes API server through a [kubernetes.Clientset],
    prints counts of five resource kinds, audits the phase of every
    persistent volume claim, inspects one fixed pod, sleeps and repeats.

    The embedding keeps the shape of the Go code: every [check*] function is a
    computation in a small state monad whose state is the API server (as seen
    through the clientset) together with the trace of everything the process
    has done so far (lines written to standard output, API calls, sleeps). *)

From Stdlib Require Import String Ascii List ZArith Lia Bool Decimal DecimalString DecimalNat.
Import ListNotations.
Open Scope string_scope.
Open Scope list_scope.

Set Implicit Arguments.

(** ** Strings and formatting *)

(** The line feed written by [fmt.Println] and by the [\n] of the formats. *)
Definition nl : string := String (ascii_of_nat 10) EmptyString.

(** [%d] applied to a [len(...)]: the decimal numeral. *)
Definition fmt_d (n : nat) : string := NilEmpty.string_of_uint (Nat.to_uint n).

(** [sub] occurs somewhere in [s]. *)
Fixpoint Contains (s sub : string) : bool :=
  if String.prefix sub s then true
  else match s with
       | EmptyString => false
       | String _ rest => Contains rest sub
       end.

(** ** The objects of [k8s.io/api/core/v1] that the program reads *)

Record ObjectMeta := { Name : string; Namespace : string }.

(** [type PodPhase string] *)
Definition PodPhase := string.
Record PodSpec := { NodeName : string }.
Record PodStatus := { podPhase : PodPhase; PodIP : string }.
Record Pod := { podMeta : ObjectMeta; podSpec : PodSpec; podStatus : PodStatus }.

Record NamespaceObj := { namespaceMeta : ObjectMeta }.
Record Node := { nodeMeta : ObjectMeta }.

(** An event carries the time it was last seen (seconds since the epoch). *)
Record Event := { eventMeta : ObjectMeta; LastTimestamp : Z }.

(** [type PersistentVolumeClaimPhase string], with its three constants. *)
Definition PersistentVolumeClaimPhase := string.
Definition ClaimPending : PersistentVolumeClaimPhase := "Pending".
Definition ClaimBound : PersistentVolumeClaimPhase := "Bound".
Definition ClaimLost : PersistentVolumeClaimPhase := "Lost".

Record PersistentVolumeClaimStatus := { pvcPhase : PersistentVolumeClaimPhase }.
Record PersistentVolumeClaim :=
  { pvcMeta : ObjectMeta; pvcStatus : PersistentVolumeClaimStatus }.

(** The [XxxList] results: only [Items] is read. *)
Record ItemList (A : Type) := { Items : list A }.

(** [metav1.ListOptions] and [metav1.GetOptions]; the program always passes the
    zero value, which selects everything. *)
Record ListOptions :=
  { LabelSelector : string; FieldSelector : string; Limit : Z; Continue : string }.
Definition ListOptions_zero : ListOptions :=
  {| LabelSelector := ""; FieldSelector := ""; Limit := 0; Continue := "" |}.

Record GetOptions := { ResourceVersion : string }.
Definition GetOptions_zero : GetOptions := {| ResourceVersion := "" |}.

(** ** Errors *)

(** Go's [error] interface: one method, [Error() string]. *)
Class GoError (E : Type) := { Error : E -> string }.

(** [metav1.Status] inside a [*errors.StatusError]: the server's message. *)
Record Status := { Message : string }.
Record StatusError := { ErrStatus : Status }.

(** A non-nil [error] returned by the client, through the three observations
    the program makes on it: its text ([err.Error()], what [%v] prints),
    whether [errors.IsNotFound] accepts it, and whether its dynamic type is
    [*errors.StatusError] (the type assertion of [checkSpecificPod]).  The
    three are independent here, so every theorem covers any client library. *)
Record clientError :=
  { errText : string; isNotFound : bool; asStatusError : option StatusError }.

#[global] Instance clientError_GoError : GoError clientError :=
  {| Error := errText |}.

(** [errors.IsNotFound(err)]; [nil] is not a not-found error. *)
Definition IsNotFound (err : option clientError) : bool :=
  match err with
  | None => false
  | Some e => isNotFound e
  end.

(** The two error types the program declares itself. *)
Inductive NoNodesInKubernetes := mkNoNodesInKubernetes.

#[global] Instance NoNodesInKubernetes_GoError : GoError NoNodesInKubernetes :=
  {| Error := fun _ => "Kubernetes cluster'ında hiç node yok" |}.

Record PersistentVolumeClaimNotInStatus :=
  { pvc : PersistentVolumeClaim; pvcStatusPhase : PersistentVolumeClaimPhase }.

#[global] Instance PersistentVolumeClaimNotInStatus_GoError :
  GoError PersistentVolumeClaimNotInStatus :=
  {| Error := fun err =>
       ("PersistentVolumeClaim " ++ Name (pvcMeta (pvc err)) ++ " beklenen "
          ++ pvcStatusPhase err ++ " durumunda değil")%string |}.

(** ** What the process does: its trace *)

Inductive Resource :=
| ResPods | ResNamespaces | ResNodes | ResEvents | ResPersistentVolumeClaims.

(** A request to the API server.  The clientset offers every verb; the program
    is free to use any of them. *)
Inductive Call :=
| ListCall (resource : Resource) (namespace : string) (opts : ListOptions)
| GetCall (resource : Resource) (namespace name : string) (opts : GetOptions)
| WatchCall (resource : Resource) (namespace : string) (opts : ListOptions)
| CreateCall (resource : Resource) (namespace name : string)
| UpdateCall (resource : Resource) (namespace name : string)
| PatchCall (resource : Resource) (namespace name : string)
| DeleteCall (resource : Resource) (namespace name : string)
| DeleteCollectionCall (resource : Resource) (namespace : string) (opts : ListOptions).

(** The verbs that create, mutate or destroy an entity. *)
Definition isWrite (c : Call) : bool :=
  match c with
  | ListCall _ _ _ | GetCall _ _ _ _ | WatchCall _ _ _ => false
  | _ => true
  end.

(** The two verbs that fetch a snapshot. *)
Definition isListOrGet (c : Call) : bool :=
  match c with
  | ListCall _ _ _ | GetCall _ _ _ _ => true
  | _ => false
  end.

(** [time.Duration] counts nanoseconds. *)
Definition Second : Z := 1000000000.

Inductive Action :=
| Stdout (text : string)
| Api (c : Call)
| Sleep (d : Z).

(** The texts written to standard output, in order. *)
Fixpoint stdout (t : list Action) : list string :=
  match t with
  | [] => []
  | Stdout s :: rest => s :: stdout rest
  | _ :: rest => stdout rest
  end.

(** The API calls issued, in order. *)
Fixpoint apiCalls (t : list Action) : list Call :=
  match t with
  | [] => []
  | Api c :: rest => c :: apiCalls rest
  | _ :: rest => apiCalls rest
  end.

Section Reporter.

(** The state of the API server, as far as the client can observe it. *)
Variable Cluster : Type.

Record World := { cluster : Cluster; trace : list Action }.

(** ** The monad of the process *)

Definition M (A : Type) : Type := World -> A * World.

Definition ret {A} (a : A) : M A := fun w => (a, w).

Definition bind {A B} (m : M A) (k : A -> M B) : M B :=
  fun w => let (a, w') := m w in k a w'.

Notation "x <- m ;; k" := (bind m (fun x => k))
  (at level 61, m at next level, right associativity).
Notation "m ;;; k" := (bind m (fun _ => k))
  (at level 61, right associativity).

Definition emit (a : Action) : M unit :=
  fun w => (tt, {| cluster := cluster w; trace := trace w ++ [a] |}).

(** [fmt.Printf] with the format already expanded, and [fmt.Println]. *)
Definition Printf (text : string) : M unit := emit (Stdout text).
Definition Println (text : string) : M unit := emit (Stdout (text ++ nl)%string).
Definition time_Sleep (d : Z) : M unit := emit (Sleep d).

(** One round trip: the call is recorded, the server answers and moves on. *)
Definition request {A} (c : Call) (op : Cluster -> A * Cluster) : M A :=
  fun w => let (a, cl) := op (cluster w) in
           (a, {| cluster := cl; trace := trace w ++ [Api c] |}).

(** [for _, x := range items { body }] *)
Fixpoint forRange {A} (items : list A) (body : A -> M unit) : M unit :=
  match items with
  | [] => ret tt
  | x :: rest => body x ;;; forRange rest body
  end.

(** ** The clientset: the six operations the program consumes

    Each returns Go's pair of a result and an error, and the next state of
    the server. *)
Record Clientset :=
  { CoreV1_Pods_List :
      string -> ListOptions -> Cluster -> (ItemList Pod * option clientError) * Cluster;
    CoreV1_Namespaces_List :
      ListOptions -> Cluster -> (ItemList NamespaceObj * option clientError) * Cluster;
    CoreV1_Nodes_List :
      ListOptions -> Cluster -> (ItemList Node * option clientError) * Cluster;
    CoreV1_Events_List :
      string -> ListOptions -> Cluster -> (ItemList Event * option clientError) * Cluster;
    CoreV1_PersistentVolumeClaims_List :
      string -> ListOptions -> Cluster
      -> (ItemList PersistentVolumeClaim * option clientError) * Cluster;
    CoreV1_Pods_Get :
      string -> string -> GetOptions -> Cluster -> (Pod * option clientError) * Cluster }.

(** ** The six checks *)

Definition checkPods (clientset : Clientset) : M unit :=
  r <- request (ListCall ResPods "" ListOptions_zero)
               (CoreV1_Pods_List clientset "" ListOptions_zero) ;;
  let (pods, err) := r in
  match err with
  | Some err => Printf ("Pod'ları listelerken hata oluştu: " ++ Error err ++ nl)%string
  | None => Printf ("Cluster'da " ++ fmt_d (length (Items pods)) ++ " pod var" ++ nl)%string
  end.

Definition checkNamespaces (clientset : Clientset) : M unit :=
  r <- request (ListCall ResNamespaces "" ListOptions_zero)
               (CoreV1_Namespaces_List clientset ListOptions_zero) ;;
  let (namespaces, err) := r in
  match err with
  | Some err => Printf ("Namespace'leri listelerken hata oluştu: " ++ Error err ++ nl)%string
  | None =>
      Printf ("Cluster'da " ++ fmt_d (length (Items namespaces)) ++ " namespace var" ++ nl)%string
  end.

Definition checkNodes (clientset : Clientset) : M unit :=
  r <- request (ListCall ResNodes "" ListOptions_zero)
               (CoreV1_Nodes_List clientset ListOptions_zero) ;;
  let (nodes, err) := r in
  match err with
  | Some err => Printf ("Node'ları listelerken hata oluştu: " ++ Error err ++ nl)%string
  | None =>
      if Nat.eqb (length (Items nodes)) 0
      then Println (Error mkNoNodesInKubernetes)
      else Printf ("Cluster'da " ++ fmt_d (length (Items nodes)) ++ " node var" ++ nl)%string
  end.

Definition checkEvents (clientset : Clientset) : M unit :=
  r <- request (ListCall ResEvents "" ListOptions_zero)
               (CoreV1_Events_List clientset "" ListOptions_zero) ;;
  let (events, err) := r in
  match err with
  | Some err => Printf ("Event'leri listelerken hata oluştu: " ++ Error err ++ nl)%string
  | None => Printf ("Son 1 saatte " ++ fmt_d (length (Items events)) ++ " event var" ++ nl)%string
  end.

Definition checkPersistentVolumeClaims (clientset : Clientset) : M unit :=
  r <- request (ListCall ResPersistentVolumeClaims "" ListOptions_zero)
               (CoreV1_PersistentVolumeClaims_List clientset "" ListOptions_zero) ;;
  let (pvcs, err) := r in
  match err with
  | Some err =>
      Printf ("PersistentVolumeClaim'leri listelerken hata oluştu: " ++ Error err ++ nl)%string
  | None =>
      Printf ("Cluster'da " ++ fmt_d (length (Items pvcs)) ++ " PersistentVolumeClaim var" ++ nl)%string ;;;
      forRange (Items pvcs) (fun pvc =>
        let expectedPhase := ClaimBound in
        if negb (String.eqb (pvcPhase (pvcStatus pvc)) expectedPhase)
        then
          let err := {| pvc := pvc; pvcStatusPhase := expectedPhase |} in
          Println (Error err)
        else ret tt)
  end.

Definition checkSpecificPod (clientset : Clientset) (namespace podName : string) : M unit :=
  r <- request (GetCall ResPods namespace podName GetOptions_zero)
               (CoreV1_Pods_Get clientset namespace podName GetOptions_zero) ;;
  let (pod, err) := r in
  if IsNotFound err
  then Printf ("Pod " ++ podName ++ " namespace " ++ namespace ++ " içinde bulunamadı" ++ nl)%string
  else
    match match err with Some e => asStatusError e | None => None end with
    | Some statusError =>
        Printf ("Pod " ++ podName ++ " namespace " ++ namespace ++ " içinde alınan hata: "
                  ++ Message (ErrStatus statusError) ++ nl)%string
    | None =>
        match err with
        | Some err => Printf ("Pod bilgisi alınırken hata oluştu: " ++ Error err ++ nl)%string
        | None =>
            Printf ("Pod " ++ podName ++ " namespace " ++ namespace ++ " içinde bulundu" ++ nl)%string ;;;
            Printf ("Pod durumu: " ++ podPhase (podStatus pod) ++ nl)%string ;;;
            Printf ("Pod IP: " ++ PodIP (podStatus pod) ++ nl)%string ;;;
            Printf ("Node: " ++ NodeName (podSpec pod) ++ nl)%string
        end
    end.

(** ** The poll loop *)

(** The body of [for { ... }]. *)
Definition iteration (clientset : Clientset) : M unit :=
  Println "Cluster Durumu:" ;;;
  checkPods clientset ;;;
  checkNamespaces clientset ;;;
  checkNodes clientset ;;;
  checkEvents clientset ;;;
  checkPersistentVolumeClaims clientset ;;;
  Println (nl ++ "Detaylı pod kontrolü:")%string ;;;
  let namespace := "default" in
  let pod := "alpine-deployment-548dbddc9b-dnq9r" in
  checkSpecificPod clientset namespace pod ;;;
  Println (nl ++ "-----------------------------------")%string ;;;
  time_Sleep (10 * Second).

(** The first [n] rounds of the endless loop. *)
Fixpoint loop (n : nat) (clientset : Clientset) : M unit :=
  match n with
  | O => ret tt
  | S n' => iteration clientset ;;; loop n' clientset
  end.

(** ** Session bootstrap and [main] *)

(** [*rest.Config] *)
Variable Config : Type.

(** What [main] finds around it: the home directory, [filepath.Join], the
    value of the [-kubeconfig] flag when it was given on the command line
    (after [flag.Parse]), and the two constructors of the client library. *)
Record Env :=
  { homedir_HomeDir : string;
    filepath_Join : list string -> string;
    flag_kubeconfig : option string;
    clientcmd_BuildConfigFromFlags : string -> string -> Config * option clientError;
    kubernetes_NewForConfig : Config -> Clientset * option clientError }.

(** [main] never returns: it panics, or it is still in its loop after any
    number of rounds. *)
Inductive Outcome :=
| Panics (message : string)
| Looping.

(** The value of [*kubeconfig] after [flag.Parse()]. *)
Definition kubeconfigPath (env : Env) : string :=
  let home := homedir_HomeDir env in
  let default :=
    if negb (String.eqb home "")
    then filepath_Join env [home; ".kube"; "config"]
    else "" in
  match flag_kubeconfig env with
  | Some value => value
  | None => default
  end.

(** [main], observed after [rounds] rounds of its loop. *)
Definition main (env : Env) (rounds : nat) (w : World) : Outcome * World :=
  let kubeconfig := kubeconfigPath env in
  let (config, err) := clientcmd_BuildConfigFromFlags env "" kubeconfig in
  match err with
  | Some err => (Panics (Error err), w)
  | None =>
      let (clientset, err) := kubernetes_NewForConfig env config in
      match err with
      | Some err => (Panics (Error err), w)
      | None => let (_, w') := loop rounds clientset w in (Looping, w')
      end
  end.

End Reporter.

(** ** A canned collaborator

    A test double for the clientset: the server state is a snapshot of the six
    answers, every operation returns its answer and leaves the snapshot as it
    is. *)
Record Snapshot :=
  { podsAnswer : ItemList Pod * option clientError;
    namespacesAnswer : ItemList NamespaceObj * option clientError;
    nodesAnswer : ItemList Node * option clientError;
    eventsAnswer : ItemList Event * option clientError;
    pvcsAnswer : ItemList PersistentVolumeClaim * option clientError;
    podAnswer : Pod * option clientError }.

Definition cannedClientset : Clientset Snapshot :=
  {| CoreV1_Pods_List := fun _ _ s => (podsAnswer s, s);
     CoreV1_Namespaces_List := fun _ s => (namespacesAnswer s, s);
     CoreV1_Nodes_List := fun _ s => (nodesAnswer s, s);
     CoreV1_Events_List := fun _ _ s => (eventsAnswer s, s);
     CoreV1_PersistentVolumeClaims_List := fun _ _ s => (pvcsAnswer s, s);
     CoreV1_Pods_Get := fun _ _ _ s => (podAnswer s, s) |}.

Definition meta (name : string) : ObjectMeta := {| Name := name; Namespace := "default" |}.

Definition mkPod (name phase ip node : string) : Pod :=
  {| podMeta := meta name;
     podSpec := {| NodeName := node |};
     podStatus := {| podPhase := phase; PodIP := ip |} |}.

Definition mkPVC (name : string) (phase : PersistentVolumeClaimPhase) : PersistentVolumeClaim :=
  {| pvcMeta := meta name; pvcStatus := {| pvcPhase := phase |} |}.

Definition mkEvent (name : string) (seen : Z) : Event :=
  {| eventMeta := meta name; LastTimestamp := seen |}.

Definition ok {A} (items : list A) : ItemList A * option clientError :=
  ({| Items := items |}, None).

Definition failed {A} (e : clientError) : ItemList A * option clientError :=
  ({| Items := [] |}, Some e).

(** A transport failure, a 404 answer, and a 403 answer. *)
Definition connectionRefused : clientError :=
  {| errText := "dial tcp 127.0.0.1:6443: connect: connection refused";
     isNotFound := false; asStatusError := None |}.

(** The double quote of Go's [%q]. *)
Definition dquote : string := String (ascii_of_nat 34) EmptyString.

(** The text of the 404 answer to the fetch of [main]'s pod. *)
Definition notFoundText : string :=
  ("pods " ++ dquote ++ "alpine-deployment-548dbddc9b-dnq9r" ++ dquote ++ " not found")%string.

Definition notFoundError : clientError :=
  {| errText := notFoundText;
     isNotFound := true;
     asStatusError := Some {| ErrStatus := {| Message := notFoundText |} |} |}.

Definition forbiddenError : clientError :=
  {| errText := "pods is forbidden";
     isNotFound := false;
     asStatusError := Some {| ErrStatus := {| Message := "pods is forbidden" |} |} |}.

Definition alpine : Pod :=
  mkPod "alpine-deployment-548dbddc9b-dnq9r" "Running" "10.244.0.7" "worker-1".

Definition fiveEvents : list Event :=
  [mkEvent "e1" 10; mkEvent "e2" 20; mkEvent "e3" 30; mkEvent "e4" 40; mkEvent "e5" 50].

(** The scenario of the specification: 3 pods, 2 namespaces, no node,
    5 events, a bound and a pending claim. *)
Definition scenario : Snapshot :=
  {| podsAnswer := ok [alpine; mkPod "a" "Running" "10.0.0.1" "n"; mkPod "b" "Pending" "" ""];
     namespacesAnswer := ok [ {| namespaceMeta := meta "default" |};
                              {| namespaceMeta := meta "kube-system" |} ];
     nodesAnswer := ok [];
     eventsAnswer := ok fiveEvents;
     pvcsAnswer := ok [mkPVC "data" ClaimBound; mkPVC "logs" ClaimPending];
     podAnswer := (alpine, None) |}.

(** The scenario with another answer to the fetch of the pod, and with the
    namespace list failing. *)
Definition withPodAnswer (answer : Pod * option clientError) : Snapshot :=
  {| podsAnswer := podsAnswer scenario;
     namespacesAnswer := namespacesAnswer scenario;
     nodesAnswer := nodesAnswer scenario;
     eventsAnswer := eventsAnswer scenario;
     pvcsAnswer := pvcsAnswer scenario;
     podAnswer := answer |}.

Definition namespacesDown : Snapshot :=
  {| podsAnswer := podsAnswer scenario;
     namespacesAnswer := failed connectionRefused;
     nodesAnswer := nodesAnswer scenario;
     eventsAnswer := eventsAnswer scenario;
     pvcsAnswer := pvcsAnswer scenario;
     podAnswer := podAnswer scenario |}.

(** A machine with no kubeconfig file, and one whose API server address does
    not parse. *)
Definition noKubeconfig : clientError :=
  {| errText := "stat /root/.kube/config: no such file or directory";
     isNotFound := false; asStatusError := None |}.

Definition badHost : clientError :=
  {| errText := "host must be a URL or a host:port pair";
     isNotFound := false; asStatusError := None |}.

Definition pathJoin (parts : list string) : string := String.concat "/" parts.

Definition envWithoutConfig : Env Snapshot unit :=
  {| homedir_HomeDir := "/root";
     filepath_Join := pathJoin;
     flag_kubeconfig := None;
     clientcmd_BuildConfigFromFlags := fun _ _ => (tt, Some noKubeconfig);
     kubernetes_NewForConfig := fun _ => (cannedClientset, None) |}.

Definition envWithBadHost : Env Snapshot unit :=
  {| homedir_HomeDir := "/root";
     filepath_Join := pathJoin;
     flag_kubeconfig := Some "/etc/kube/config";
     clientcmd_BuildConfigFromFlags := fun _ _ => (tt, None);
     kubernetes_NewForConfig := fun _ => (cannedClientset, Some badHost) |}.

(** A process that has done nothing yet, facing a server in state [c]. *)
Definition start {Cluster} (c : Cluster) : World Cluster := {| cluster := c; trace := [] |}.

(** ** Notions used to state the properties *)

(** A claim violates the audit when its phase is not ["Bound"]. *)
Definition notBound (p : PersistentVolumeClaim) : bool :=
  negb (String.eqb (pvcPhase (pvcStatus p)) "Bound").

(** The line the audit prints for a violating claim: its name and the phase
    that was expected. *)
Definition violationLine (p : PersistentVolumeClaim) : string :=
  ("PersistentVolumeClaim " ++ Name (pvcMeta p) ++ " beklenen Bound durumunda değil" ++ nl)%string.

Definition violationLines (items : list PersistentVolumeClaim) : list string :=
  map violationLine (filter notBound items).

(** What [checkSpecificPod] has done when it issued its one call, got the
    next server state [cl] and wrote exactly [lines]. *)
Definition inspected {Cluster} (clientset : Clientset Cluster) (namespace podName : string)
  (w : World Cluster) (cl : Cluster) (lines : list string) : Prop :=
  checkSpecificPod clientset namespace podName w =
  (tt, {| cluster := cl;
          trace := trace w ++ Api (GetCall ResPods namespace podName GetOptions_zero)
                     :: map Stdout lines |}).

Definition notFoundLine (namespace podName : string) : string :=
  ("Pod " ++ podName ++ " namespace " ++ namespace ++ " içinde bulunamadı" ++ nl)%string.

Definition statusErrorLine (namespace podName message : string) : string :=
  ("Pod " ++ podName ++ " namespace " ++ namespace ++ " içinde alınan hata: "
     ++ message ++ nl)%string.

Definition otherErrorLine (text : string) : string :=
  ("Pod bilgisi alınırken hata oluştu: " ++ text ++ nl)%string.

Definition foundLines (namespace podName : string) (pod : Pod) : list string :=
  [ ("Pod " ++ podName ++ " namespace " ++ namespace ++ " içinde bulundu" ++ nl)%string;
    ("Pod durumu: " ++ podPhase (podStatus pod) ++ nl)%string;
    ("Pod IP: " ++ PodIP (podStatus pod) ++ nl)%string;
    ("Node: " ++ NodeName (podSpec pod) ++ nl)%string ].

(** What each check writes, given the answer to its one call. *)
Definition podsLines (answer : ItemList Pod * option clientError) : list string :=
  match snd answer with
  | Some e => [ ("Pod'ları listelerken hata oluştu: " ++ Error e ++ nl)%string ]
  | None => [ ("Cluster'da " ++ fmt_d (length (Items (fst answer))) ++ " pod var" ++ nl)%string ]
  end.

Definition namespacesLines (answer : ItemList NamespaceObj * option clientError) : list string :=
  match snd answer with
  | Some e => [ ("Namespace'leri listelerken hata oluştu: " ++ Error e ++ nl)%string ]
  | None =>
      [ ("Cluster'da " ++ fmt_d (length (Items (fst answer))) ++ " namespace var" ++ nl)%string ]
  end.

Definition nodesLines (answer : ItemList Node * option clientError) : list string :=
  match snd answer with
  | Some e => [ ("Node'ları listelerken hata oluştu: " ++ Error e ++ nl)%string ]
  | None =>
      match Items (fst answer) with
      | [] => [ ("Kubernetes cluster'ında hiç node yok" ++ nl)%string ]
      | items => [ ("Cluster'da " ++ fmt_d (length items) ++ " node var" ++ nl)%string ]
      end
  end.

Definition eventsLines (answer : ItemList Event * option clientError) : list string :=
  match snd answer with
  | Some e => [ ("Event'leri listelerken hata oluştu: " ++ Error e ++ nl)%string ]
  | None =>
      [ ("Son 1 saatte " ++ fmt_d (length (Items (fst answer))) ++ " event var" ++ nl)%string ]
  end.

Definition pvcsLines (answer : ItemList PersistentVolumeClaim * option clientError)
  : list string :=
  match snd answer with
  | Some e =>
      [ ("PersistentVolumeClaim'leri listelerken hata oluştu: " ++ Error e ++ nl)%string ]
  | None =>
      ("Cluster'da " ++ fmt_d (length (Items (fst answer)))
         ++ " PersistentVolumeClaim var" ++ nl)%string
      :: violationLines (Items (fst answer))
  end.

Definition podLines (namespace podName : string) (answer : Pod * option clientError)
  : list string :=
  match snd answer with
  | None => foundLines namespace podName (fst answer)
  | Some e =>
      if isNotFound e then [notFoundLine namespace podName]
      else match asStatusError e with
           | Some statusError =>
               [statusErrorLine namespace podName (Message (ErrStatus statusError))]
           | None => [otherErrorLine (Error e)]
           end
  end.

(** The six calls of a round. *)
Definition listPods : Call := ListCall ResPods "" ListOptions_zero.
Definition listNamespaces : Call := ListCall ResNamespaces "" ListOptions_zero.
Definition listNodes : Call := ListCall ResNodes "" ListOptions_zero.
Definition listEvents : Call := ListCall ResEvents "" ListOptions_zero.
Definition listPersistentVolumeClaims : Call :=
  ListCall ResPersistentVolumeClaims "" ListOptions_zero.
Definition getAlpine : Call :=
  GetCall ResPods "default" "alpine-deployment-548dbddc9b-dnq9r" GetOptions_zero.

Definition headerLine : string := ("Cluster Durumu:" ++ nl)%string.
Definition detailLine : string := (nl ++ "Detaylı pod kontrolü:" ++ nl)%string.
Definition separatorLine : string := (nl ++ "-----------------------------------" ++ nl)%string.

(** The trace of a round whose six calls were answered by [s]. *)
Definition roundTrace (s : Snapshot) : list Action :=
  Stdout headerLine
  :: Api listPods :: map Stdout (podsLines (podsAnswer s))
  ++ Api listNamespaces :: map Stdout (namespacesLines (namespacesAnswer s))
  ++ Api listNodes :: map Stdout (nodesLines (nodesAnswer s))
  ++ Api listEvents :: map Stdout (eventsLines (eventsAnswer s))
  ++ Api listPersistentVolumeClaims :: map Stdout (pvcsLines (pvcsAnswer s))
  ++ Stdout detailLine
  :: Api getAlpine
  :: map Stdout (podLines "default" "alpine-deployment-548dbddc9b-dnq9r" (podAnswer s))
  ++ [ Stdout separatorLine; Sleep (10 * Second) ].

(** The answers a clientset gives to the six calls of a round that starts
    with the server in state [c], and the state of the server afterwards. *)
Definition answers {Cluster} (clientset : Clientset Cluster) (c : Cluster)
  : Snapshot * Cluster :=
  let (a1, c1) := CoreV1_Pods_List clientset "" ListOptions_zero c in
  let (a2, c2) := CoreV1_Namespaces_List clientset ListOptions_zero c1 in
  let (a3, c3) := CoreV1_Nodes_List clientset ListOptions_zero c2 in
  let (a4, c4) := CoreV1_Events_List clientset "" ListOptions_zero c3 in
  let (a5, c5) := CoreV1_PersistentVolumeClaims_List clientset "" ListOptions_zero c4 in
  let (a6, c6) :=
    CoreV1_Pods_Get clientset "default" "alpine-deployment-548dbddc9b-dnq9r"
      GetOptions_zero c5 in
  ({| podsAnswer := a1; namespacesAnswer := a2; nodesAnswer := a3;
      eventsAnswer := a4; pvcsAnswer := a5; podAnswer := a6 |}, c6).

(** The state of the server after [n] rounds, and what the rounds do. *)
Fixpoint serverAfter {Cluster} (n : nat) (clientset : Clientset Cluster) (c : Cluster)
  : Cluster :=
  match n with
  | O => c
  | S n' => serverAfter n' clientset (snd (answers clientset c))
  end.

Fixpoint roundsTrace {Cluster} (n : nat) (clientset : Clientset Cluster) (c : Cluster)
  : list Action :=
  match n with
  | O => []
  | S n' =>
      roundTrace (fst (answers clientset c))
        ++ roundsTrace n' clientset (snd (answers clientset c))
  end.

(** The server is a snapshot at [c]: answering any of the six read operations
    leaves it in state [c]. *)
Definition readsLeaveServerAsIs {Cluster} (clientset : Clientset Cluster) (c : Cluster)
  : Prop :=
  (forall ns o, snd (CoreV1_Pods_List clientset ns o c) = c)
  /\ (forall o, snd (CoreV1_Namespaces_List clientset o c) = c)
  /\ (forall o, snd (CoreV1_Nodes_List clientset o c) = c)
  /\ (forall ns o, snd (CoreV1_Events_List clientset ns o c) = c)
  /\ (forall ns o, snd (CoreV1_PersistentVolumeClaims_List clientset ns o c) = c)
  /\ (forall ns name o, snd (CoreV1_Pods_Get clientset ns name o c) = c).

(** The events seen between [from] and [to], both included. *)
Definition inWindow (from to : Z) (e : Event) : bool :=
  (from <=? LastTimestamp e)%Z && (LastTimestamp e <=? to)%Z.

(** ** Notions used to state further properties *)

(** The total time slept, in nanoseconds. *)
Fixpoint sleptTotal (t : list Action) : Z :=
  match t with
  | [] => 0%Z
  | Sleep d :: rest => (d + sleptTotal rest)%Z
  | _ :: rest => sleptTotal rest
  end.

(** The branch [checkSpecificPod] takes on an answer, in the order of its
    tests. *)
Inductive GetOutcome :=
| OutcomeNotFound
| OutcomeStatusError
| OutcomeOtherError
| OutcomeFound.

Definition outcomeOf (answer : Pod * option clientError) : GetOutcome :=
  match snd answer with
  | None => OutcomeFound
  | Some e =>
      if isNotFound e then OutcomeNotFound
      else match asStatusError e with
           | Some _ => OutcomeStatusError
           | None => OutcomeOtherError
           end
  end.

(** A text that ends with a line feed. *)
Definition endsWithNewline (text : string) : Prop :=
  exists body, text = (body ++ nl)%string.

(** Two claims the audit cannot tell apart: same name, and both bound or both
    not bound. *)
Definition sameNameAndBoundness (p q : PersistentVolumeClaim) : Prop :=
  Name (pvcMeta p) = Name (pvcMeta q) /\ notBound p = notBound q.

(** Further canned answers and environments. *)
Definition pendingLogs : Snapshot :=
  {| podsAnswer := podsAnswer scenario;
     namespacesAnswer := namespacesAnswer scenario;
     nodesAnswer := nodesAnswer scenario;
     eventsAnswer := eventsAnswer scenario;
     pvcsAnswer := ok [mkPVC "logs" ClaimPending];
     podAnswer := podAnswer scenario |}.

Definition lostLogs : Snapshot :=
  {| podsAnswer := podsAnswer scenario;
     namespacesAnswer := namespacesAnswer scenario;
     nodesAnswer := nodesAnswer scenario;
     eventsAnswer := eventsAnswer scenario;
     pvcsAnswer := ok [mkPVC "logs" ClaimLost];
     podAnswer := podAnswer scenario |}.

Definition envReady : Env Snapshot unit :=
  {| homedir_HomeDir := "/root";
     filepath_Join := pathJoin;
     flag_kubeconfig := None;
     clientcmd_BuildConfigFromFlags := fun _ _ => (tt, None);
     kubernetes_NewForConfig := fun _ => (cannedClientset, None) |}.



(** Another 404: a different pod in the answer, a different text, no status. *)
Definition goneAnswer : Pod * option clientError :=
  (mkPod "other" "Failed" "" "",
   Some {| errText := "gone"; isNotFound := true; asStatusError := None |}).

(** * Properties *)

Example scenario_output :
  stdout (trace (snd (iteration cannedClientset (start scenario)))) =
  [ ("Cluster Durumu:" ++ nl)%string;
    ("Cluster'da 3 pod var" ++ nl)%string;
    ("Cluster'da 2 namespace var" ++ nl)%string;
    ("Kubernetes cluster'ında hiç node yok" ++ nl)%string;
    ("Son 1 saatte 5 event var" ++ nl)%string;
    ("Cluster'da 2 PersistentVolumeClaim var" ++ nl)%string;
    ("PersistentVolumeClaim logs beklenen Bound durumunda değil" ++ nl)%string;
    (nl ++ "Detaylı pod kontrolü:" ++ nl)%string;
    ("Pod alpine-deployment-548dbddc9b-dnq9r namespace default içinde bulundu" ++ nl)%string;
    ("Pod durumu: Running" ++ nl)%string;
    ("Pod IP: 10.244.0.7" ++ nl)%string;
    ("Node: worker-1" ++ nl)%string;
    (nl ++ "-----------------------------------" ++ nl)%string ].
Proof. vm_compute. reflexivity. Qed.

(** ** Strings *)

Lemma fmt_d_inj (n m : nat) : fmt_d n = fmt_d m -> n = m.
Proof.
  unfold fmt_d. intro H.
  apply (f_equal NilEmpty.uint_of_string) in H.
  rewrite !NilEmpty.usu in H.
  injection H as H.
  apply (f_equal Nat.of_uint) in H.
  now rewrite !DecimalNat.Unsigned.of_to in H.
Qed.

Lemma append_assoc (a b c : string) : ((a ++ b) ++ c = a ++ (b ++ c))%string.
Proof. induction a as [|x a IH]; simpl; [reflexivity | now rewrite IH]. Qed.

Lemma append_length (a b : string) :
  String.length (a ++ b) = String.length a + String.length b.
Proof. induction a as [|x a IH]; simpl; [reflexivity | now rewrite IH]. Qed.

Lemma append_inv_head (a b c : string) : (a ++ b = a ++ c)%string -> b = c.
Proof.
  induction a as [|x a IH]; simpl; intro H; [exact H|].
  injection H as H. now apply IH.
Qed.

Lemma append_inv_tail (a b c : string) : (a ++ c = b ++ c)%string -> a = b.
Proof.
  revert b. induction a as [|x a IH]; intros [|y b] H; simpl in H.
  - reflexivity.
  - apply (f_equal String.length) in H. simpl in H.
    rewrite append_length in H. lia.
  - apply (f_equal String.length) in H. simpl in H.
    rewrite append_length in H. lia.
  - injection H as Hx H. subst y. f_equal. now apply IH.
Qed.

Lemma prefix_append (a b : string) : String.prefix a (a ++ b) = true.
Proof.
  induction a as [|x a IH]; simpl.
  - now destruct b.
  - destruct (ascii_dec x x) as [_|Hx]; [exact IH | now elim Hx].
Qed.

(** ** The volume-claim audit, claim by claim *)

Section Audit.

Variable Cluster : Type.

Lemma Error_violationLine (p : PersistentVolumeClaim) :
  (Error {| pvc := p; pvcStatusPhase := ClaimBound |} ++ nl)%string = violationLine p.
Proof.
  unfold violationLine. simpl. unfold ClaimBound.
  rewrite !append_assoc. reflexivity.
Qed.

(** The range loop of [checkPersistentVolumeClaims] writes the violation
    lines in the order of the list and touches nothing else. *)
Lemma forRange_audit (items : list PersistentVolumeClaim) (c : Cluster) (t : list Action) :
  forRange items
    (fun pvc =>
       let expectedPhase := ClaimBound in
       if negb (String.eqb (pvcPhase (pvcStatus pvc)) expectedPhase)
       then
         let err := {| pvc := pvc; pvcStatusPhase := expectedPhase |} in
         Println (Error err)
       else ret tt)
    (Build_World c t)
  = (tt, Build_World c (t ++ map Stdout (violationLines items))).
Proof.
  revert t. induction items as [|p rest IH]; intro t.
  - simpl. now rewrite app_nil_r.
  - cbn [forRange]. unfold bind at 1. unfold violationLines. cbn [filter].
    unfold notBound at 1. fold ClaimBound.
    destruct (negb (pvcPhase (pvcStatus p) =? ClaimBound)%string).
    + unfold Println, emit. cbn [cluster trace]. rewrite IH.
      rewrite Error_violationLine. cbn [map]. unfold violationLines.
      now rewrite <- app_assoc.
    + unfold ret. rewrite IH. reflexivity.
Qed.

End Audit.

(** ** The counters *)

Ltac run_check H :=
  unfold bind, request, Printf, Println, emit; cbn [cluster trace];
  rewrite H; cbn [cluster trace];
  rewrite <- ?app_assoc; cbn [app].

(** C1.  For each of the four plain counters (pods, namespaces, events,
    persistent volume claims): when the list call succeeds with a collection
    of N items, the counter issues that one call and prints the count line
    with the decimal numeral of N.  The claim counter prints it first, before
    the lines of its audit, none of which is a count line. *)
Theorem counters_report_exact_count
  (Cluster : Type) (clientset : Clientset Cluster) (w : World Cluster) :
  (forall pods cl,
      CoreV1_Pods_List clientset "" ListOptions_zero (cluster w) = (pods, None, cl) ->
      checkPods clientset w =
      (tt, {| cluster := cl;
              trace := trace w ++
                [ Api (ListCall ResPods "" ListOptions_zero);
                  Stdout ("Cluster'da " ++ fmt_d (length (Items pods)) ++ " pod var" ++ nl) ] |}))
  /\
  (forall namespaces cl,
      CoreV1_Namespaces_List clientset ListOptions_zero (cluster w) = (namespaces, None, cl) ->
      checkNamespaces clientset w =
      (tt, {| cluster := cl;
              trace := trace w ++
                [ Api (ListCall ResNamespaces "" ListOptions_zero);
                  Stdout ("Cluster'da " ++ fmt_d (length (Items namespaces))
                            ++ " namespace var" ++ nl) ] |}))
  /\
  (forall events cl,
      CoreV1_Events_List clientset "" ListOptions_zero (cluster w) = (events, None, cl) ->
      checkEvents clientset w =
      (tt, {| cluster := cl;
              trace := trace w ++
                [ Api (ListCall ResEvents "" ListOptions_zero);
                  Stdout ("Son 1 saatte " ++ fmt_d (length (Items events))
                            ++ " event var" ++ nl) ] |}))
  /\
  (forall pvcs cl,
      CoreV1_PersistentVolumeClaims_List clientset "" ListOptions_zero (cluster w)
      = (pvcs, None, cl) ->
      exists audit,
        checkPersistentVolumeClaims clientset w =
        (tt, {| cluster := cl;
                trace := trace w ++
                  Api (ListCall ResPersistentVolumeClaims "" ListOptions_zero)
                  :: Stdout ("Cluster'da " ++ fmt_d (length (Items pvcs))
                               ++ " PersistentVolumeClaim var" ++ nl)
                  :: map Stdout audit |})
        /\ Forall (fun line => String.prefix "PersistentVolumeClaim " line = true) audit).
Proof.
  destruct w as [c t]. cbn [cluster trace].
  repeat split.
  - intros pods cl H. unfold checkPods. run_check H. reflexivity.
  - intros namespaces cl H. unfold checkNamespaces. run_check H. reflexivity.
  - intros events cl H. unfold checkEvents. run_check H. reflexivity.
  - intros pvcs cl H. exists (violationLines (Items pvcs)). split.
    + unfold checkPersistentVolumeClaims. run_check H.
      rewrite forRange_audit. rewrite <- app_assoc. reflexivity.
    + unfold violationLines. apply Forall_map, Forall_forall.
      intros p _. apply prefix_append.
Qed.

Lemma counters_report_exact_count_witness :
  checkEvents cannedClientset (start scenario) =
  (tt, {| cluster := scenario;
          trace := [ Api (ListCall ResEvents "" ListOptions_zero);
                     Stdout ("Son 1 saatte 5 event var" ++ nl) ] |}).
Proof.
  exact (proj1 (proj2 (proj2 (counters_report_exact_count cannedClientset (start scenario))))
           {| Items := fiveEvents |} scenario eq_refl).
Defined.

(** C2.  When the claim list call succeeds, the auditor prints the count line
    with the length of the whole list, then, in the order of the list, one
    line for every claim whose phase is not ["Bound"] and none for a claim
    whose phase is ["Bound"]; each line names its claim and the expected
    phase.  So there are as many violation lines as claims not bound. *)
Theorem auditor_one_line_per_unbound_claim
  (Cluster : Type) (clientset : Clientset Cluster) (w : World Cluster)
  (pvcs : ItemList PersistentVolumeClaim) (cl : Cluster) :
  CoreV1_PersistentVolumeClaims_List clientset "" ListOptions_zero (cluster w)
  = (pvcs, None, cl) ->
  exists violations : list string,
    checkPersistentVolumeClaims clientset w =
    (tt, {| cluster := cl;
            trace := trace w ++
              Api (ListCall ResPersistentVolumeClaims "" ListOptions_zero)
              :: Stdout ("Cluster'da " ++ fmt_d (length (Items pvcs))
                           ++ " PersistentVolumeClaim var" ++ nl)
              :: map Stdout violations |})
    /\ violations =
       map (fun p => ("PersistentVolumeClaim " ++ Name (pvcMeta p)
                        ++ " beklenen Bound durumunda değil" ++ nl)%string)
           (filter (fun p => negb (String.eqb (pvcPhase (pvcStatus p)) "Bound")) (Items pvcs))
    /\ length violations =
       length (filter (fun p => negb (String.eqb (pvcPhase (pvcStatus p)) "Bound")) (Items pvcs))
    /\ (Forall (fun p => pvcPhase (pvcStatus p) = "Bound") (Items pvcs) -> violations = []).
Proof.
  intro H. destruct w as [c t]. cbn [cluster trace] in *.
  exists (violationLines (Items pvcs)).
  split; [|split; [|split]].
  - unfold checkPersistentVolumeClaims. run_check H.
    rewrite forRange_audit. rewrite <- app_assoc. reflexivity.
  - reflexivity.
  - unfold violationLines. apply length_map.
  - intro Hall. unfold violationLines.
    induction (Items pvcs) as [|p rest IH]; [reflexivity|].
    inversion Hall as [|? ? Hp Hrest]; subst.
    cbn [filter]. unfold notBound at 1. rewrite Hp. cbn. now apply IH.
Qed.

Lemma auditor_one_line_per_unbound_claim_witness :
  exists violations : list string,
    checkPersistentVolumeClaims cannedClientset (start scenario) =
    (tt, {| cluster := scenario;
            trace := Api (ListCall ResPersistentVolumeClaims "" ListOptions_zero)
                     :: Stdout ("Cluster'da 2 PersistentVolumeClaim var" ++ nl)
                     :: map Stdout violations |})
    /\ violations = [ ("PersistentVolumeClaim logs beklenen Bound durumunda değil" ++ nl)%string ].
Proof.
  destruct (auditor_one_line_per_unbound_claim cannedClientset (start scenario)
              (pvcs := {| Items := [mkPVC "data" ClaimBound; mkPVC "logs" ClaimPending] |})
              eq_refl) as [violations [Hrun [Hlines _]]].
  exists violations. split; [exact Hrun | exact Hlines].
Defined.

(** C4.  When the node list call succeeds: with no node the counter prints
    the text of [NoNodesInKubernetes], which is not the numeric line for 0;
    with N >= 1 nodes it prints the numeric line with N. *)
Theorem node_counter_distinguishes_empty
  (Cluster : Type) (clientset : Clientset Cluster) (w : World Cluster)
  (nodes : ItemList Node) (cl : Cluster) :
  CoreV1_Nodes_List clientset ListOptions_zero (cluster w) = (nodes, None, cl) ->
  (length (Items nodes) = 0 ->
   checkNodes clientset w =
   (tt, {| cluster := cl;
           trace := trace w ++
             [ Api (ListCall ResNodes "" ListOptions_zero);
               Stdout ("Kubernetes cluster'ında hiç node yok" ++ nl) ] |}))
  /\ (1 <= length (Items nodes) ->
      checkNodes clientset w =
      (tt, {| cluster := cl;
              trace := trace w ++
                [ Api (ListCall ResNodes "" ListOptions_zero);
                  Stdout ("Cluster'da " ++ fmt_d (length (Items nodes)) ++ " node var" ++ nl) ] |}))
  /\ ("Kubernetes cluster'ında hiç node yok" ++ nl)%string
     <> ("Cluster'da " ++ fmt_d 0 ++ " node var" ++ nl)%string.
Proof.
  intro H. destruct w as [c t]. cbn [cluster trace] in *.
  split; [|split].
  - intro H0. unfold checkNodes. run_check H. rewrite H0.
    cbn [Nat.eqb cluster trace]. now rewrite <- app_assoc.
  - intro H1. unfold checkNodes. run_check H.
    destruct (Nat.eqb_spec (length (Items nodes)) 0) as [E|_]; [lia|].
    cbn [cluster trace]. now rewrite <- app_assoc.
  - discriminate.
Qed.

Lemma node_counter_distinguishes_empty_witness :
  checkNodes cannedClientset (start scenario) =
  (tt, {| cluster := scenario;
          trace := [ Api (ListCall ResNodes "" ListOptions_zero);
                     Stdout ("Kubernetes cluster'ında hiç node yok" ++ nl) ] |}).
Proof.
  exact (proj1 (node_counter_distinguishes_empty cannedClientset (start scenario)
                  (nodes := {| Items := [] |}) eq_refl) eq_refl).
Defined.

(** ** The inspector of one pod *)

(** The four branches of [checkSpecificPod], in the order the code tests
    them. *)
Lemma checkSpecificPod_run
  (Cluster : Type) (clientset : Clientset Cluster) (namespace podName : string)
  (w : World Cluster) (pod : Pod) (err : option clientError) (cl : Cluster) :
  CoreV1_Pods_Get clientset namespace podName GetOptions_zero (cluster w) = (pod, err, cl) ->
  inspected clientset namespace podName w cl
    (match err with
     | None => foundLines namespace podName pod
     | Some e =>
         if isNotFound e then [notFoundLine namespace podName]
         else match asStatusError e with
              | Some statusError =>
                  [statusErrorLine namespace podName (Message (ErrStatus statusError))]
              | None => [otherErrorLine (Error e)]
              end
     end).
Proof.
  intro H. destruct w as [c t]. cbn [cluster] in H.
  unfold inspected, checkSpecificPod. run_check H.
  destruct err as [e|]; cbn [IsNotFound].
  - destruct (isNotFound e); [|destruct (asStatusError e) as [se|]];
      cbn [cluster trace map]; now rewrite <- app_assoc.
  - cbn [cluster trace map foundLines]. now rewrite <- !app_assoc.
Qed.

(** C3.  For any namespace and pod name, hence for the fixed pair of [main]:
    a not-found answer yields exactly the not-found line with name and
    namespace; a structured API error (one that is not a not-found answer)
    yields exactly the line with the server's message, verbatim; any other
    error yields exactly the generic line with the text of the error; success
    yields exactly the four lines found, phase, address, node, with the values
    of the pod that was fetched. *)
Theorem inspector_four_outcomes
  (Cluster : Type) (clientset : Clientset Cluster) (namespace podName : string)
  (w : World Cluster) (pod : Pod) (err : option clientError) (cl : Cluster) :
  CoreV1_Pods_Get clientset namespace podName GetOptions_zero (cluster w) = (pod, err, cl) ->
  (IsNotFound err = true ->
   inspected clientset namespace podName w cl
     [ ("Pod " ++ podName ++ " namespace " ++ namespace ++ " içinde bulunamadı" ++ nl)%string ])
  /\ (forall e statusError,
         err = Some e -> IsNotFound err = false -> asStatusError e = Some statusError ->
         inspected clientset namespace podName w cl
           [ ("Pod " ++ podName ++ " namespace " ++ namespace ++ " içinde alınan hata: "
                ++ Message (ErrStatus statusError) ++ nl)%string ])
  /\ (forall e,
         err = Some e -> IsNotFound err = false -> asStatusError e = None ->
         inspected clientset namespace podName w cl
           [ ("Pod bilgisi alınırken hata oluştu: " ++ Error e ++ nl)%string ])
  /\ (err = None ->
      inspected clientset namespace podName w cl
        [ ("Pod " ++ podName ++ " namespace " ++ namespace ++ " içinde bulundu" ++ nl)%string;
          ("Pod durumu: " ++ podPhase (podStatus pod) ++ nl)%string;
          ("Pod IP: " ++ PodIP (podStatus pod) ++ nl)%string;
          ("Node: " ++ NodeName (podSpec pod) ++ nl)%string ]).
Proof.
  intro H. pose proof (checkSpecificPod_run _ _ _ _ H) as R.
  split; [|split; [|split]].
  - intro NF. destruct err as [e|]; [|discriminate]. cbn in NF. now rewrite NF in R.
  - intros e se -> NF SE. cbn in NF. now rewrite NF, SE in R.
  - intros e -> NF SE. cbn in NF. now rewrite NF, SE in R.
  - intros ->. exact R.
Qed.

Lemma inspector_four_outcomes_witness :
  inspected cannedClientset "default" "alpine-deployment-548dbddc9b-dnq9r"
    (start (withPodAnswer (alpine, Some forbiddenError)))
    (withPodAnswer (alpine, Some forbiddenError))
    [ ("Pod alpine-deployment-548dbddc9b-dnq9r namespace default içinde alınan hata: "
         ++ "pods is forbidden" ++ nl)%string ].
Proof.
  exact (proj1 (proj2
           (inspector_four_outcomes cannedClientset "default"
              "alpine-deployment-548dbddc9b-dnq9r"
              (start (withPodAnswer (alpine, Some forbiddenError))) eq_refl))
           forbiddenError _ eq_refl eq_refl eq_refl).
Defined.

(** C10.  For the pair inspected by [main]: an error that is both a not-found
    answer and a [*errors.StatusError] yields the not-found line and nothing
    else; and a line carrying a server message is written exactly when the
    error is a [*errors.StatusError] that is not a not-found answer. *)
Theorem not_found_before_status_error
  (Cluster : Type) (clientset : Clientset Cluster)
  (w : World Cluster) (pod : Pod) (err : option clientError) (cl : Cluster) :
  CoreV1_Pods_Get clientset "default" "alpine-deployment-548dbddc9b-dnq9r"
    GetOptions_zero (cluster w) = (pod, err, cl) ->
  exists lines : list string,
    inspected clientset "default" "alpine-deployment-548dbddc9b-dnq9r" w cl lines
    /\ (forall e statusError,
           err = Some e -> IsNotFound err = true -> asStatusError e = Some statusError ->
           lines =
           [ ("Pod alpine-deployment-548dbddc9b-dnq9r namespace default içinde bulunamadı"
                ++ nl)%string ])
    /\ ((exists message,
            In ("Pod alpine-deployment-548dbddc9b-dnq9r namespace default içinde alınan hata: "
                  ++ message ++ nl)%string lines)
        <-> (exists e statusError,
                err = Some e /\ asStatusError e = Some statusError /\ IsNotFound err = false)).
Proof.
  intro H. pose proof (checkSpecificPod_run _ _ _ _ H) as R.
  eexists. split; [exact R|]. split.
  - intros e se -> NF _. cbn in NF. rewrite NF. reflexivity.
  - split.
    + intros [message Hin]. destruct err as [e|].
      * destruct (isNotFound e) eqn:NF.
        { destruct Hin as [Hin|[]]. cbn in Hin. discriminate Hin. }
        destruct (asStatusError e) as [se|] eqn:SE.
        { exists e, se. repeat split; assumption. }
        destruct Hin as [Hin|[]]. cbn in Hin. discriminate Hin.
      * cbn in Hin.
        destruct Hin as [Hin|[Hin|[Hin|[Hin|[]]]]]; discriminate Hin.
    + intros (e & se & -> & SE & NF). cbn in NF. rewrite NF, SE.
      exists (Message (ErrStatus se)). left. reflexivity.
Qed.

Lemma not_found_before_status_error_witness :
  exists lines : list string,
    inspected cannedClientset "default" "alpine-deployment-548dbddc9b-dnq9r"
      (start (withPodAnswer (alpine, Some notFoundError)))
      (withPodAnswer (alpine, Some notFoundError)) lines
    /\ lines =
       [ ("Pod alpine-deployment-548dbddc9b-dnq9r namespace default içinde bulunamadı"
            ++ nl)%string ].
Proof.
  destruct (not_found_before_status_error cannedClientset
              (start (withPodAnswer (alpine, Some notFoundError))) eq_refl)
    as [lines [Hrun [Hnf _]]].
  exists lines. split; [exact Hrun|].
  exact (Hnf notFoundError _ eq_refl eq_refl eq_refl).
Defined.

(** ** One round as a function of the six answers *)

Section Rounds.

Variable Cluster : Type.
Variable clientset : Clientset Cluster.

Lemma checkPods_run (c : Cluster) (t : list Action) :
  checkPods clientset (Build_World c t) =
  (tt, Build_World (snd (CoreV1_Pods_List clientset "" ListOptions_zero c))
         (t ++ Api listPods
            :: map Stdout (podsLines (fst (CoreV1_Pods_List clientset "" ListOptions_zero c))))).
Proof.
  unfold checkPods, bind, request, Printf, emit, podsLines. cbn [cluster trace].
  destruct (CoreV1_Pods_List clientset "" ListOptions_zero c) as [[pods [e|]] c1];
    cbn [cluster trace fst snd map]; now rewrite <- app_assoc.
Qed.

Lemma checkNamespaces_run (c : Cluster) (t : list Action) :
  checkNamespaces clientset (Build_World c t) =
  (tt, Build_World (snd (CoreV1_Namespaces_List clientset ListOptions_zero c))
         (t ++ Api listNamespaces
            :: map Stdout
                 (namespacesLines (fst (CoreV1_Namespaces_List clientset ListOptions_zero c))))).
Proof.
  unfold checkNamespaces, bind, request, Printf, emit, namespacesLines. cbn [cluster trace].
  destruct (CoreV1_Namespaces_List clientset ListOptions_zero c) as [[nss [e|]] c1];
    cbn [cluster trace fst snd map]; now rewrite <- app_assoc.
Qed.

Lemma checkNodes_run (c : Cluster) (t : list Action) :
  checkNodes clientset (Build_World c t) =
  (tt, Build_World (snd (CoreV1_Nodes_List clientset ListOptions_zero c))
         (t ++ Api listNodes
            :: map Stdout (nodesLines (fst (CoreV1_Nodes_List clientset ListOptions_zero c))))).
Proof.
  unfold checkNodes, bind, request, Printf, Println, emit, nodesLines. cbn [cluster trace].
  destruct (CoreV1_Nodes_List clientset ListOptions_zero c) as [[[items] [e|]] c1];
    cbn [cluster trace fst snd map Items].
  - now rewrite <- app_assoc.
  - destruct items as [|x rest]; cbn [length Nat.eqb cluster trace map];
      now rewrite <- app_assoc.
Qed.

Lemma checkEvents_run (c : Cluster) (t : list Action) :
  checkEvents clientset (Build_World c t) =
  (tt, Build_World (snd (CoreV1_Events_List clientset "" ListOptions_zero c))
         (t ++ Api listEvents
            :: map Stdout
                 (eventsLines (fst (CoreV1_Events_List clientset "" ListOptions_zero c))))).
Proof.
  unfold checkEvents, bind, request, Printf, emit, eventsLines. cbn [cluster trace].
  destruct (CoreV1_Events_List clientset "" ListOptions_zero c) as [[evs [e|]] c1];
    cbn [cluster trace fst snd map]; now rewrite <- app_assoc.
Qed.

Lemma checkPersistentVolumeClaims_run (c : Cluster) (t : list Action) :
  checkPersistentVolumeClaims clientset (Build_World c t) =
  (tt, Build_World
         (snd (CoreV1_PersistentVolumeClaims_List clientset "" ListOptions_zero c))
         (t ++ Api listPersistentVolumeClaims
            :: map Stdout
                 (pvcsLines
                    (fst (CoreV1_PersistentVolumeClaims_List clientset "" ListOptions_zero c))))).
Proof.
  unfold checkPersistentVolumeClaims, bind, request, Printf, emit, pvcsLines.
  cbn [cluster trace].
  destruct (CoreV1_PersistentVolumeClaims_List clientset "" ListOptions_zero c)
    as [[pvcs [e|]] c1]; cbn [cluster trace fst snd map].
  - now rewrite <- app_assoc.
  - rewrite forRange_audit. rewrite <- !app_assoc. reflexivity.
Qed.

Lemma checkSpecificPod_run' (namespace podName : string) (c : Cluster) (t : list Action) :
  checkSpecificPod clientset namespace podName (Build_World c t) =
  (tt, Build_World (snd (CoreV1_Pods_Get clientset namespace podName GetOptions_zero c))
         (t ++ Api (GetCall ResPods namespace podName GetOptions_zero)
            :: map Stdout
                 (podLines namespace podName
                    (fst (CoreV1_Pods_Get clientset namespace podName GetOptions_zero c))))).
Proof.
  destruct (CoreV1_Pods_Get clientset namespace podName GetOptions_zero c)
    as [[pod err] c1] eqn:H.
  exact (checkSpecificPod_run clientset namespace podName (Build_World c t) H).
Qed.

(** A round issues its six calls one after the other, whatever the answers,
    and its trace is [roundTrace] of the answers. *)
Lemma iteration_run (c : Cluster) (t : list Action) :
  iteration clientset (Build_World c t) =
  (tt, Build_World (snd (answers clientset c)) (t ++ roundTrace (fst (answers clientset c)))).
Proof.
  unfold iteration, bind at 1 2 3 4 5 6 7 8 9, Println, time_Sleep, emit.
  cbn [cluster trace].
  rewrite checkPods_run, checkNamespaces_run, checkNodes_run, checkEvents_run,
    checkPersistentVolumeClaims_run.
  cbn [cluster trace]. rewrite checkSpecificPod_run'. cbn [cluster trace].
  unfold answers, roundTrace.
  destruct (CoreV1_Pods_List clientset "" ListOptions_zero c) as [a1 c1].
  cbn [fst snd].
  destruct (CoreV1_Namespaces_List clientset ListOptions_zero c1) as [a2 c2].
  cbn [fst snd].
  destruct (CoreV1_Nodes_List clientset ListOptions_zero c2) as [a3 c3].
  cbn [fst snd].
  destruct (CoreV1_Events_List clientset "" ListOptions_zero c3) as [a4 c4].
  cbn [fst snd].
  destruct (CoreV1_PersistentVolumeClaims_List clientset "" ListOptions_zero c4) as [a5 c5].
  cbn [fst snd].
  destruct (CoreV1_Pods_Get clientset "default" "alpine-deployment-548dbddc9b-dnq9r"
              GetOptions_zero c5) as [a6 c6].
  cbn [fst snd podsAnswer namespacesAnswer nodesAnswer eventsAnswer pvcsAnswer podAnswer].
  f_equal. f_equal.
  repeat (rewrite <- ?app_assoc; cbn [app]).
  reflexivity.
Qed.

End Rounds.

(** ** Several rounds *)

Lemma apiCalls_app (t1 t2 : list Action) : apiCalls (t1 ++ t2) = apiCalls t1 ++ apiCalls t2.
Proof.
  induction t1 as [|a t1 IH]; [reflexivity|].
  destruct a; simpl; now rewrite IH.
Qed.

Lemma apiCalls_Stdout (lines : list string) : apiCalls (map Stdout lines) = [].
Proof. induction lines as [|l lines IH]; [reflexivity | exact IH]. Qed.

(** Whatever was answered, a round issues the same six calls, in order. *)
Lemma apiCalls_roundTrace (s : Snapshot) :
  apiCalls (roundTrace s) =
  [listPods; listNamespaces; listNodes; listEvents; listPersistentVolumeClaims; getAlpine].
Proof.
  unfold roundTrace.
  repeat (cbn [apiCalls app]; rewrite ?apiCalls_app, ?apiCalls_Stdout).
  reflexivity.
Qed.

Section Loop.

Variable Cluster : Type.
Variable clientset : Clientset Cluster.

Lemma loop_run (n : nat) (c : Cluster) (t : list Action) :
  loop n clientset (Build_World c t) =
  (tt, Build_World (serverAfter n clientset c) (t ++ roundsTrace n clientset c)).
Proof.
  revert c t. induction n as [|n IH]; intros c t.
  - cbn. now rewrite app_nil_r.
  - cbn [loop serverAfter roundsTrace]. unfold bind.
    rewrite iteration_run, IH. now rewrite app_assoc.
Qed.

Lemma answers_unchanged (c : Cluster) :
  readsLeaveServerAsIs clientset c -> snd (answers clientset c) = c.
Proof.
  intros (H1 & H2 & H3 & H4 & H5 & H6). unfold answers.
  pose proof (H1 "" ListOptions_zero) as E1.
  destruct (CoreV1_Pods_List clientset "" ListOptions_zero c) as [a1 c1].
  cbn in E1. subst c1.
  pose proof (H2 ListOptions_zero) as E2.
  destruct (CoreV1_Namespaces_List clientset ListOptions_zero c) as [a2 c2].
  cbn in E2. subst c2.
  pose proof (H3 ListOptions_zero) as E3.
  destruct (CoreV1_Nodes_List clientset ListOptions_zero c) as [a3 c3].
  cbn in E3. subst c3.
  pose proof (H4 "" ListOptions_zero) as E4.
  destruct (CoreV1_Events_List clientset "" ListOptions_zero c) as [a4 c4].
  cbn in E4. subst c4.
  pose proof (H5 "" ListOptions_zero) as E5.
  destruct (CoreV1_PersistentVolumeClaims_List clientset "" ListOptions_zero c) as [a5 c5].
  cbn in E5. subst c5.
  pose proof (H6 "default" "alpine-deployment-548dbddc9b-dnq9r" GetOptions_zero) as E6.
  destruct (CoreV1_Pods_Get clientset "default" "alpine-deployment-548dbddc9b-dnq9r"
              GetOptions_zero c) as [a6 c6].
  cbn in E6. subst c6. reflexivity.
Qed.

Lemma serverAfter_unchanged (n : nat) (c : Cluster) :
  readsLeaveServerAsIs clientset c -> serverAfter n clientset c = c.
Proof.
  intro H. induction n as [|n IH]; [reflexivity|].
  cbn [serverAfter]. now rewrite (answers_unchanged H).
Qed.

Lemma roundsTrace_unchanged (n : nat) (c : Cluster) :
  readsLeaveServerAsIs clientset c ->
  roundsTrace n clientset c = concat (repeat (roundTrace (fst (answers clientset c))) n).
Proof.
  intro H. induction n as [|n IH]; [reflexivity|].
  cbn [roundsTrace repeat concat]. now rewrite (answers_unchanged H), IH.
Qed.

Lemma apiCalls_roundsTrace (n : nat) (c : Cluster) :
  apiCalls (roundsTrace n clientset c) =
  concat (repeat [listPods; listNamespaces; listNodes; listEvents;
                  listPersistentVolumeClaims; getAlpine] n).
Proof.
  revert c. induction n as [|n IH]; intro c; [reflexivity|].
  cbn [roundsTrace repeat concat].
  now rewrite apiCalls_app, apiCalls_roundTrace, IH.
Qed.

End Loop.

Lemma Contains_prefix (s sub : string) : String.prefix sub s = true -> Contains s sub = true.
Proof. intro H. destruct s; cbn [Contains]; now rewrite H. Qed.

Lemma Contains_append (a s b : string) : Contains (a ++ s ++ b) s = true.
Proof.
  induction a as [|x a IH].
  - cbn [append]. apply Contains_prefix. apply prefix_append.
  - cbn [append Contains]. now destruct (String.prefix s (String x (a ++ s ++ b))).
Qed.

(** ** A failed query *)

(** C5, as stated, fails at the inspector: when the fetch of the pod fails
    with a not-found error, no line of the whole round includes the text of
    that error. *)
Lemma not_found_line_lacks_error_text :
  let s := withPodAnswer (alpine, Some notFoundError) in
  snd (podAnswer (fst (answers cannedClientset s))) = Some notFoundError
  /\ ~ (exists line,
          In line (stdout (trace (snd (iteration cannedClientset (start s)))))
          /\ Contains line (Error notFoundError) = true).
Proof.
  split; [reflexivity|].
  intros [line [Hin Hc]].
  assert (Hall : forallb (fun l => negb (Contains l (Error notFoundError)))
                   (stdout (trace (snd (iteration cannedClientset
                      (start (withPodAnswer (alpine, Some notFoundError))))))) = true)
    by (vm_compute; reflexivity).
  rewrite forallb_forall in Hall. specialize (Hall line Hin).
  rewrite Hc in Hall. discriminate Hall.
Qed.

(** C5, amended.  Whatever the six answers are, a round issues its six calls
    in order (pods, namespaces, nodes, events, claims, then the fetch of the
    pod) and ends with the separator and the sleep.  A list query that fails
    writes exactly one line, its diagnostic, which includes the text of the
    error, and no count or audit line.  A fetch that fails writes exactly one
    line and none of its four report lines: the not-found line, the line with
    the server's message, or the generic line, which includes the text of the
    error. *)
Theorem failed_query_does_not_stop_round
  (Cluster : Type) (clientset : Clientset Cluster) (w : World Cluster) :
  exists (s : Snapshot) (cl : Cluster),
    answers clientset (cluster w) = (s, cl)
    /\ iteration clientset w = (tt, {| cluster := cl; trace := trace w ++ roundTrace s |})
    /\ apiCalls (roundTrace s) =
       [ ListCall ResPods "" ListOptions_zero;
         ListCall ResNamespaces "" ListOptions_zero;
         ListCall ResNodes "" ListOptions_zero;
         ListCall ResEvents "" ListOptions_zero;
         ListCall ResPersistentVolumeClaims "" ListOptions_zero;
         GetCall ResPods "default" "alpine-deployment-548dbddc9b-dnq9r" GetOptions_zero ]
    /\ (exists t, roundTrace s = t ++ [ Stdout separatorLine; Sleep (10 * Second) ])
    /\ (forall e, snd (podsAnswer s) = Some e ->
        podsLines (podsAnswer s)
        = [ ("Pod'ları listelerken hata oluştu: " ++ Error e ++ nl)%string ]
        /\ Contains ("Pod'ları listelerken hata oluştu: " ++ Error e ++ nl) (Error e) = true)
    /\ (forall e, snd (namespacesAnswer s) = Some e ->
        namespacesLines (namespacesAnswer s)
        = [ ("Namespace'leri listelerken hata oluştu: " ++ Error e ++ nl)%string ]
        /\ Contains ("Namespace'leri listelerken hata oluştu: " ++ Error e ++ nl) (Error e)
           = true)
    /\ (forall e, snd (nodesAnswer s) = Some e ->
        nodesLines (nodesAnswer s)
        = [ ("Node'ları listelerken hata oluştu: " ++ Error e ++ nl)%string ]
        /\ Contains ("Node'ları listelerken hata oluştu: " ++ Error e ++ nl) (Error e) = true)
    /\ (forall e, snd (eventsAnswer s) = Some e ->
        eventsLines (eventsAnswer s)
        = [ ("Event'leri listelerken hata oluştu: " ++ Error e ++ nl)%string ]
        /\ Contains ("Event'leri listelerken hata oluştu: " ++ Error e ++ nl) (Error e) = true)
    /\ (forall e, snd (pvcsAnswer s) = Some e ->
        pvcsLines (pvcsAnswer s)
        = [ ("PersistentVolumeClaim'leri listelerken hata oluştu: " ++ Error e ++ nl)%string ]
        /\ Contains ("PersistentVolumeClaim'leri listelerken hata oluştu: " ++ Error e ++ nl)
             (Error e) = true)
    /\ (forall e, snd (podAnswer s) = Some e ->
        exists line,
          podLines "default" "alpine-deployment-548dbddc9b-dnq9r" (podAnswer s) = [line]
          /\ ~ In line (foundLines "default" "alpine-deployment-548dbddc9b-dnq9r"
                          (fst (podAnswer s)))
          /\ ((isNotFound e = true
               /\ line = ("Pod alpine-deployment-548dbddc9b-dnq9r namespace default"
                            ++ " içinde bulunamadı" ++ nl)%string)
              \/ (isNotFound e = false
                  /\ exists statusError,
                      asStatusError e = Some statusError
                      /\ line = ("Pod alpine-deployment-548dbddc9b-dnq9r namespace default"
                                   ++ " içinde alınan hata: "
                                   ++ Message (ErrStatus statusError) ++ nl)%string)
              \/ (isNotFound e = false /\ asStatusError e = None
                  /\ line = ("Pod bilgisi alınırken hata oluştu: " ++ Error e ++ nl)%string
                  /\ Contains line (Error e) = true))).
Proof.
  destruct w as [c t]. cbn [cluster trace].
  destruct (answers clientset c) as [s cl] eqn:A.
  exists s, cl. split; [reflexivity|].
  split; [rewrite iteration_run, A; reflexivity|].
  split; [apply apiCalls_roundTrace|].
  split.
  { unfold roundTrace. eexists.
    change (Stdout headerLine :: ?x) with ([Stdout headerLine] ++ x).
    repeat (rewrite ?app_comm_cons, ?app_assoc). reflexivity. }
  repeat split.
  - unfold podsLines. now rewrite H.
  - apply Contains_append.
  - unfold namespacesLines. now rewrite H.
  - apply Contains_append.
  - unfold nodesLines. now rewrite H.
  - apply Contains_append.
  - unfold eventsLines. now rewrite H.
  - apply Contains_append.
  - unfold pvcsLines. now rewrite H.
  - apply Contains_append.
  - intros e H. unfold podLines. rewrite H.
    destruct (isNotFound e) eqn:NF; [|destruct (asStatusError e) as [se|] eqn:SE].
    + eexists. split; [reflexivity|]. split.
      * cbn. intros [E|[E|[E|[E|[]]]]]; discriminate E.
      * left. split; reflexivity.
    + eexists. split; [reflexivity|]. split.
      * cbn. intros [E|[E|[E|[E|[]]]]]; discriminate E.
      * right. left. split; [reflexivity|]. exists se. split; reflexivity.
    + eexists. split; [reflexivity|]. split.
      * cbn. intros [E|[E|[E|[E|[]]]]]; discriminate E.
      * right. right. repeat split. apply Contains_append.
Qed.

Lemma failed_query_does_not_stop_round_witness :
  iteration cannedClientset (start namespacesDown) =
  (tt, {| cluster := namespacesDown; trace := roundTrace namespacesDown |})
  /\ namespacesLines (namespacesAnswer namespacesDown) =
     [ ("Namespace'leri listelerken hata oluştu: "
          ++ "dial tcp 127.0.0.1:6443: connect: connection refused" ++ nl)%string ].
Proof.
  destruct (failed_query_does_not_stop_round cannedClientset (start namespacesDown))
    as (s & cl & A & I & _ & _ & _ & Hns & _).
  injection A as <- <-.
  split; [exact I|].
  exact (proj1 (Hns connectionRefused eq_refl)).
Defined.

(** ** The events counter and time *)

(** C6.  The events counter lists the events of every namespace with the zero
    [ListOptions] (no selector, no limit) and, under the text "Son 1 saatte"
    (in the last hour), prints the number of all events returned.  For any
    time window that leaves out one of them, the line is not the line with the
    number of events inside the window. *)
Theorem events_counter_counts_all_events
  (Cluster : Type) (clientset : Clientset Cluster) (w : World Cluster)
  (events : ItemList Event) (cl : Cluster) (from to : Z) :
  CoreV1_Events_List clientset "" ListOptions_zero (cluster w) = (events, None, cl) ->
  checkEvents clientset w =
  (tt, {| cluster := cl;
          trace := trace w ++
            [ Api (ListCall ResEvents ""
                     {| LabelSelector := ""; FieldSelector := ""; Limit := 0; Continue := "" |});
              Stdout ("Son 1 saatte " ++ fmt_d (length (Items events)) ++ " event var" ++ nl) ] |})
  /\ (length (filter (inWindow from to) (Items events)) <> length (Items events) ->
      ("Son 1 saatte " ++ fmt_d (length (Items events)) ++ " event var" ++ nl)%string
      <> ("Son 1 saatte " ++ fmt_d (length (filter (inWindow from to) (Items events)))
            ++ " event var" ++ nl)%string).
Proof.
  intro H. destruct w as [c t]. cbn [cluster trace] in *. split.
  - unfold checkEvents. run_check H. reflexivity.
  - intros Hlen E. apply Hlen.
    apply append_inv_head in E.
    rewrite <- (append_assoc (fmt_d _) " event var" nl) in E.
    rewrite <- (append_assoc (fmt_d (length (filter _ _))) " event var" nl) in E.
    apply append_inv_tail in E. apply append_inv_tail in E.
    symmetry. now apply fmt_d_inj.
Qed.

Lemma events_counter_counts_all_events_witness :
  checkEvents cannedClientset (start scenario) =
  (tt, {| cluster := scenario;
          trace := [ Api (ListCall ResEvents "" ListOptions_zero);
                     Stdout ("Son 1 saatte 5 event var" ++ nl) ] |})
  /\ ("Son 1 saatte 5 event var" ++ nl)%string <> ("Son 1 saatte 3 event var" ++ nl)%string.
Proof.
  pose proof (events_counter_counts_all_events cannedClientset (start scenario)
                (events := {| Items := fiveEvents |}) 30 3630 eq_refl) as [Hrun Hne].
  split; [exact Hrun|].
  apply Hne. cbn. discriminate.
Defined.

(** ** The program only observes *)

(** C7.  In any number of rounds, from any state, against any clientset, every
    call issued is a list or a get and none is a write: the calls are the six
    reads of a round, round after round.  So when reading leaves the server as
    it is, the rounds leave it as it is. *)
Theorem only_reads_are_issued
  (Cluster : Type) (clientset : Clientset Cluster) (n : nat) (w : World Cluster) :
  exists added : list Action,
    loop n clientset w =
    (tt, {| cluster := serverAfter n clientset (cluster w); trace := trace w ++ added |})
    /\ apiCalls added =
       concat (repeat
                 [ ListCall ResPods "" ListOptions_zero;
                   ListCall ResNamespaces "" ListOptions_zero;
                   ListCall ResNodes "" ListOptions_zero;
                   ListCall ResEvents "" ListOptions_zero;
                   ListCall ResPersistentVolumeClaims "" ListOptions_zero;
                   GetCall ResPods "default" "alpine-deployment-548dbddc9b-dnq9r"
                     GetOptions_zero ] n)
    /\ Forall (fun call => isListOrGet call = true /\ isWrite call = false) (apiCalls added)
    /\ (readsLeaveServerAsIs clientset (cluster w) ->
        cluster (snd (loop n clientset w)) = cluster w).
Proof.
  destruct w as [c t]. cbn [cluster trace].
  exists (roundsTrace n clientset c).
  split; [apply loop_run|].
  split; [apply apiCalls_roundsTrace|].
  split.
  - rewrite apiCalls_roundsTrace.
    induction n as [|n IH]; [constructor|].
    cbn [repeat concat]. apply Forall_app. split; [|exact IH].
    repeat constructor.
  - intro H. rewrite loop_run. cbn [snd cluster].
    now apply serverAfter_unchanged.
Qed.

Lemma only_reads_are_issued_witness :
  cluster (snd (loop 3 cannedClientset (start scenario))) = scenario.
Proof.
  destruct (only_reads_are_issued cannedClientset 3 (start scenario))
    as (added & _ & _ & _ & Hframe).
  apply Hframe. repeat split.
Defined.

(** ** Bootstrap *)

(** C8.  When [BuildConfigFromFlags] fails, or when it succeeds and
    [NewForConfig] fails, [main] panics with the text of the error, whatever
    number of rounds it is observed for: nothing was written, no call was
    issued, no round ran and no second attempt was made. *)
Theorem bootstrap_failure_panics
  (Cluster Config : Type) (env : Env Cluster Config) (rounds : nat) (w : World Cluster) :
  (forall config e,
      clientcmd_BuildConfigFromFlags env "" (kubeconfigPath env) = (config, Some e) ->
      main env rounds w = (Panics (Error e), w))
  /\ (forall config clientset e,
         clientcmd_BuildConfigFromFlags env "" (kubeconfigPath env) = (config, None) ->
         kubernetes_NewForConfig env config = (clientset, Some e) ->
         main env rounds w = (Panics (Error e), w))
  /\ (forall config clientset,
         clientcmd_BuildConfigFromFlags env "" (kubeconfigPath env) = (config, None) ->
         kubernetes_NewForConfig env config = (clientset, None) ->
         main env rounds w = (Looping, snd (loop rounds clientset w))).
Proof.
  unfold main. repeat split.
  - intros config e H. now rewrite H.
  - intros config clientset e H1 H2. now rewrite H1, H2.
  - intros config clientset H1 H2. rewrite H1, H2.
    now destruct (loop rounds clientset w).
Qed.

Lemma bootstrap_failure_panics_witness :
  main envWithoutConfig 5 (start scenario)
  = (Panics "stat /root/.kube/config: no such file or directory", start scenario)
  /\ main envWithBadHost 5 (start scenario)
     = (Panics "host must be a URL or a host:port pair", start scenario).
Proof.
  split.
  - exact (proj1 (bootstrap_failure_panics envWithoutConfig 5 (start scenario))
             tt noKubeconfig eq_refl).
  - exact (proj1 (proj2 (bootstrap_failure_panics envWithBadHost 5 (start scenario)))
             tt cannedClientset badHost eq_refl eq_refl).
Defined.

(** ** Rounds against an unchanged cluster *)

(** C9.  The trace of a round is a function of the six answers: two rounds,
    even against different clientsets, that get equal answers leave equal
    traces.  And against a server that reading leaves as it is, [n] rounds
    leave [n] copies of the trace of one round. *)
Theorem rounds_on_unchanged_cluster_are_identical
  (Cluster Cluster' : Type) (clientset : Clientset Cluster) (clientset' : Clientset Cluster')
  (c : Cluster) (c' : Cluster') (n : nat) :
  (fst (answers clientset c) = fst (answers clientset' c') ->
   trace (snd (iteration clientset (start c))) = trace (snd (iteration clientset' (start c'))))
  /\ (readsLeaveServerAsIs clientset c ->
      loop n clientset (start c) =
      (tt, {| cluster := c;
              trace := concat (repeat (trace (snd (iteration clientset (start c)))) n) |})).
Proof.
  unfold start. split.
  - intro H. rewrite !iteration_run. cbn [snd trace app]. now rewrite H.
  - intro H. rewrite loop_run, iteration_run. cbn [snd trace app].
    now rewrite (serverAfter_unchanged n H), (roundsTrace_unchanged n H).
Qed.

Lemma rounds_on_unchanged_cluster_are_identical_witness :
  loop 2 cannedClientset (start scenario) =
  (tt, {| cluster := scenario;
          trace := trace (snd (iteration cannedClientset (start scenario)))
                   ++ trace (snd (iteration cannedClientset (start scenario))) ++ [] |}).
Proof.
  apply (proj2 (rounds_on_unchanged_cluster_are_identical
                  cannedClientset cannedClientset scenario scenario 2)).
  repeat split.
Defined.

(** * Further properties *)

(** ** What a round writes *)

Lemma stdout_app (t1 t2 : list Action) : stdout (t1 ++ t2) = stdout t1 ++ stdout t2.
Proof.
  induction t1 as [|a t1 IH]; [reflexivity|].
  destruct a; simpl; now rewrite IH.
Qed.

Lemma stdout_Stdout (lines : list string) : stdout (map Stdout lines) = lines.
Proof. induction lines as [|l lines IH]; [reflexivity | cbn; now rewrite IH]. Qed.

Lemma stdout_roundTrace (s : Snapshot) :
  stdout (roundTrace s) =
  headerLine
  :: podsLines (podsAnswer s)
  ++ namespacesLines (namespacesAnswer s)
  ++ nodesLines (nodesAnswer s)
  ++ eventsLines (eventsAnswer s)
  ++ pvcsLines (pvcsAnswer s)
  ++ detailLine
  :: podLines "default" "alpine-deployment-548dbddc9b-dnq9r" (podAnswer s)
  ++ [separatorLine].
Proof.
  unfold roundTrace.
  repeat (cbn [stdout app]; rewrite ?stdout_app, ?stdout_Stdout).
  reflexivity.
Qed.

Lemma sleptTotal_app (t1 t2 : list Action) :
  sleptTotal (t1 ++ t2) = (sleptTotal t1 + sleptTotal t2)%Z.
Proof.
  induction t1 as [|a t1 IH]; [reflexivity|].
  destruct a; simpl; rewrite IH; lia.
Qed.

Lemma sleptTotal_Stdout (lines : list string) : sleptTotal (map Stdout lines) = 0%Z.
Proof. induction lines as [|l lines IH]; [reflexivity | exact IH]. Qed.

Lemma sleptTotal_roundTrace (s : Snapshot) : sleptTotal (roundTrace s) = (10 * Second)%Z.
Proof.
  unfold roundTrace.
  repeat (cbn [sleptTotal app]; rewrite ?sleptTotal_app, ?sleptTotal_Stdout).
  reflexivity.
Qed.

Lemma sleptTotal_roundsTrace
  (Cluster : Type) (clientset : Clientset Cluster) (n : nat) (c : Cluster) :
  sleptTotal (roundsTrace n clientset c) = (Z.of_nat n * (10 * Second))%Z.
Proof.
  revert c. induction n as [|n IH]; intro c; [reflexivity|].
  cbn [roundsTrace]. rewrite sleptTotal_app, sleptTotal_roundTrace, IH. lia.
Qed.

(** ** The counters, read back *)

(** X1.  Whatever the node list call answers (an error, no node, some
    nodes), [checkNodes] never writes the numeric line for zero nodes. *)
Theorem node_counter_never_prints_zero
  (Cluster : Type) (clientset : Clientset Cluster) (w : World Cluster) :
  exists lines : list string,
    checkNodes clientset w =
    (tt, {| cluster := snd (CoreV1_Nodes_List clientset ListOptions_zero (cluster w));
            trace := trace w ++ Api (ListCall ResNodes "" ListOptions_zero)
                       :: map Stdout lines |})
    /\ ~ In ("Cluster'da 0 node var" ++ nl)%string lines.
Proof.
  destruct w as [c t]. cbn [cluster trace].
  eexists. split; [apply checkNodes_run|].
  unfold nodesLines.
  destruct (CoreV1_Nodes_List clientset ListOptions_zero c) as [[[items] [e|]] c1];
    cbn [fst snd Items].
  - intros [E|[]]. discriminate E.
  - destruct items as [|x rest].
    + intros [E|[]]. discriminate E.
    + intros [E|[]].
      change ("Cluster'da 0 node var" ++ nl)%string
        with ("Cluster'da " ++ fmt_d 0 ++ " node var" ++ nl)%string in E.
      apply append_inv_head in E.
      apply append_inv_tail in E.
      apply fmt_d_inj in E. discriminate E.
Qed.

(** X2.  The count can be read back from what a counter writes: when two
    successful runs of the same counter, against any two servers, write the
    same text, the two lists have the same length.  This holds for the pod,
    namespace, node, event and claim counters. *)
Theorem count_line_determines_count
  (Cluster Cluster' : Type) (clientset : Clientset Cluster) (clientset' : Clientset Cluster')
  (c : Cluster) (c' : Cluster') :
  (forall pods pods' cl cl',
      CoreV1_Pods_List clientset "" ListOptions_zero c = (pods, None, cl) ->
      CoreV1_Pods_List clientset' "" ListOptions_zero c' = (pods', None, cl') ->
      stdout (trace (snd (checkPods clientset (start c))))
      = stdout (trace (snd (checkPods clientset' (start c')))) ->
      length (Items pods) = length (Items pods'))
  /\ (forall namespaces namespaces' cl cl',
         CoreV1_Namespaces_List clientset ListOptions_zero c = (namespaces, None, cl) ->
         CoreV1_Namespaces_List clientset' ListOptions_zero c' = (namespaces', None, cl') ->
         stdout (trace (snd (checkNamespaces clientset (start c))))
         = stdout (trace (snd (checkNamespaces clientset' (start c')))) ->
         length (Items namespaces) = length (Items namespaces'))
  /\ (forall nodes nodes' cl cl',
         CoreV1_Nodes_List clientset ListOptions_zero c = (nodes, None, cl) ->
         CoreV1_Nodes_List clientset' ListOptions_zero c' = (nodes', None, cl') ->
         stdout (trace (snd (checkNodes clientset (start c))))
         = stdout (trace (snd (checkNodes clientset' (start c')))) ->
         length (Items nodes) = length (Items nodes'))
  /\ (forall events events' cl cl',
         CoreV1_Events_List clientset "" ListOptions_zero c = (events, None, cl) ->
         CoreV1_Events_List clientset' "" ListOptions_zero c' = (events', None, cl') ->
         stdout (trace (snd (checkEvents clientset (start c))))
         = stdout (trace (snd (checkEvents clientset' (start c')))) ->
         length (Items events) = length (Items events'))
  /\ (forall pvcs pvcs' cl cl',
         CoreV1_PersistentVolumeClaims_List clientset "" ListOptions_zero c
         = (pvcs, None, cl) ->
         CoreV1_PersistentVolumeClaims_List clientset' "" ListOptions_zero c'
         = (pvcs', None, cl') ->
         stdout (trace (snd (checkPersistentVolumeClaims clientset (start c))))
         = stdout (trace (snd (checkPersistentVolumeClaims clientset' (start c')))) ->
         length (Items pvcs) = length (Items pvcs')).
Proof.
  unfold start. repeat split.
  - intros pods pods' cl cl' H H' E.
    rewrite !checkPods_run, H, H' in E. cbn [snd trace Datatypes.app stdout listPods listNamespaces listNodes listEvents
           listPersistentVolumeClaims] in E.
    rewrite !stdout_Stdout in E. unfold podsLines in E. cbn [fst snd] in E.
    injection E as E. apply append_inv_tail in E.
    now apply fmt_d_inj.
  - intros nss nss' cl cl' H H' E.
    rewrite !checkNamespaces_run, H, H' in E. cbn [snd trace Datatypes.app stdout listPods listNamespaces listNodes listEvents
           listPersistentVolumeClaims] in E.
    rewrite !stdout_Stdout in E. unfold namespacesLines in E. cbn [fst snd] in E.
    injection E as E. apply append_inv_tail in E.
    now apply fmt_d_inj.
  - intros [items] [items'] cl cl' H H' E.
    rewrite !checkNodes_run, H, H' in E. cbn [snd trace Datatypes.app stdout listPods listNamespaces listNodes listEvents
           listPersistentVolumeClaims] in E.
    rewrite !stdout_Stdout in E. unfold nodesLines in E. cbn [fst snd Items] in E.
    cbn [Items].
    destruct items as [|x rest], items' as [|x' rest']; try reflexivity;
      try (injection E as E; discriminate E).
    injection E as E. apply append_inv_tail in E.
    now apply fmt_d_inj.
  - intros evs evs' cl cl' H H' E.
    rewrite !checkEvents_run, H, H' in E. cbn [snd trace Datatypes.app stdout listPods listNamespaces listNodes listEvents
           listPersistentVolumeClaims] in E.
    rewrite !stdout_Stdout in E. unfold eventsLines in E. cbn [fst snd] in E.
    injection E as E. apply append_inv_tail in E.
    now apply fmt_d_inj.
  - intros pvcs pvcs' cl cl' H H' E.
    rewrite !checkPersistentVolumeClaims_run, H, H' in E. cbn [snd trace Datatypes.app stdout listPods listNamespaces listNodes listEvents
           listPersistentVolumeClaims] in E.
    rewrite !stdout_Stdout in E. unfold pvcsLines in E. cbn [fst snd] in E.
    injection E as E _. apply append_inv_tail in E.
    now apply fmt_d_inj.
Qed.

Lemma count_line_determines_count_witness :
  length (Items (fst (podsAnswer scenario))) = length [alpine; alpine; alpine].
Proof.
  apply (proj1 (count_line_determines_count cannedClientset cannedClientset scenario
                  (withPodAnswer (alpine, Some notFoundError)))
           (fst (podsAnswer scenario))
           {| Items := [alpine; mkPod "a" "Running" "10.0.0.1" "n"; mkPod "b" "Pending" "" ""] |}
           scenario (withPodAnswer (alpine, Some notFoundError))).
  - reflexivity.
  - reflexivity.
  - reflexivity.
Defined.

(** ** What the audit tells *)

Lemma violationLines_same (items items' : list PersistentVolumeClaim) :
  Forall2 sameNameAndBoundness items items' ->
  violationLines items = violationLines items'.
Proof.
  unfold violationLines.
  induction 1 as [|p q rest rest' [Hname Hbound] _ IH]; [reflexivity|].
  cbn [filter]. rewrite Hbound.
  destruct (notBound q); [|exact IH].
  cbn [map]. rewrite IH. unfold violationLine. now rewrite Hname.
Qed.

(** X3.  The audit line carries the expected phase, never the phase the
    claim is in: two successful runs over lists that agree, claim by claim, on
    the names and on which claims are bound write the same text, whatever the
    phases of the unbound claims are. *)
Theorem audit_hides_actual_phase
  (Cluster Cluster' : Type) (clientset : Clientset Cluster) (clientset' : Clientset Cluster')
  (c : Cluster) (c' : Cluster')
  (pvcs pvcs' : ItemList PersistentVolumeClaim) (cl : Cluster) (cl' : Cluster') :
  CoreV1_PersistentVolumeClaims_List clientset "" ListOptions_zero c = (pvcs, None, cl) ->
  CoreV1_PersistentVolumeClaims_List clientset' "" ListOptions_zero c' = (pvcs', None, cl') ->
  Forall2 (fun p q =>
             Name (pvcMeta p) = Name (pvcMeta q)
             /\ negb (String.eqb (pvcPhase (pvcStatus p)) "Bound")
                = negb (String.eqb (pvcPhase (pvcStatus q)) "Bound"))
          (Items pvcs) (Items pvcs') ->
  stdout (trace (snd (checkPersistentVolumeClaims clientset (start c))))
  = stdout (trace (snd (checkPersistentVolumeClaims clientset' (start c')))).
Proof.
  intros H H' Hsame. unfold start.
  rewrite !checkPersistentVolumeClaims_run, H, H'.
  cbn [snd trace Datatypes.app stdout listPersistentVolumeClaims].
  rewrite !stdout_Stdout. unfold pvcsLines. cbn [fst snd].
  rewrite (Forall2_length Hsame).
  now rewrite (violationLines_same Hsame).
Qed.

Lemma audit_hides_actual_phase_witness :
  stdout (trace (snd (checkPersistentVolumeClaims cannedClientset (start pendingLogs))))
  = stdout (trace (snd (checkPersistentVolumeClaims cannedClientset (start lostLogs)))).
Proof.
  apply (audit_hides_actual_phase cannedClientset cannedClientset pendingLogs lostLogs
           (pvcs := {| Items := [mkPVC "logs" ClaimPending] |})
           (pvcs' := {| Items := [mkPVC "logs" ClaimLost] |})
           (cl := pendingLogs) (cl' := lostLogs)).
  - reflexivity.
  - reflexivity.
  - repeat constructor.
Defined.

(** ** Rounds compose *)


(** X5.  Once the bootstrap has succeeded, [main] observed after any number
    of rounds is still looping; from a fresh start it has then issued six
    calls per round and slept ten seconds per round, and nothing it has
    written precedes its first call but the header. *)
Theorem main_issues_six_calls_per_sleep
  (Cluster Config : Type) (env : Env Cluster Config) (rounds : nat) (c : Cluster)
  (config : Config) (clientset : Clientset Cluster) :
  clientcmd_BuildConfigFromFlags env "" (kubeconfigPath env) = (config, None) ->
  kubernetes_NewForConfig env config = (clientset, None) ->
  exists w' : World Cluster,
    main env rounds (start c) = (Looping, w')
    /\ length (apiCalls (trace w')) = 6 * rounds
    /\ sleptTotal (trace w') = (Z.of_nat rounds * (10 * 1000000000))%Z
    /\ (1 <= rounds ->
        exists rest,
          trace w' = Stdout ("Cluster Durumu:" ++ nl)
                     :: Api (ListCall ResPods "" ListOptions_zero) :: rest).
Proof.
  intros H1 H2. unfold main, start. rewrite H1, H2, loop_run.
  eexists. split; [reflexivity|]. cbn [trace Datatypes.app].
  split; [|split].
  - rewrite apiCalls_roundsTrace.
    induction rounds as [|n IH]; [reflexivity|].
    cbn [repeat concat]. rewrite length_app, IH. cbn [length]. lia.
  - apply sleptTotal_roundsTrace.
  - intro Hr. destruct rounds as [|n]; [lia|].
    cbn [roundsTrace]. unfold roundTrace at 1.
    eexists. reflexivity.
Qed.

Lemma main_issues_six_calls_per_sleep_witness :
  exists w' : World Snapshot,
    main envReady 3 (start scenario) = (Looping, w')
    /\ length (apiCalls (trace w')) = 18
    /\ sleptTotal (trace w') = 30000000000%Z.
Proof.
  destruct (main_issues_six_calls_per_sleep envReady 3 scenario
              (config := tt) (clientset := cannedClientset) eq_refl eq_refl)
    as (w' & Hmain & Hcalls & Hslept & _).
  exists w'. split; [exact Hmain|]. split; [exact Hcalls | exact Hslept].
Defined.

(** ** The path of the configuration *)



(** ** Reading the outcome of the fetch off the output *)

(** X7.  For the pair inspected by [main], the text written by the inspector
    tells which branch was taken: two fetches after which the inspector wrote
    the same text had the same outcome (not found, status error, other error,
    found). *)
Theorem inspector_output_tells_outcome
  (Cluster Cluster' : Type) (clientset : Clientset Cluster) (clientset' : Clientset Cluster')
  (c : Cluster) (c' : Cluster') (answer answer' : Pod * option clientError)
  (cl : Cluster) (cl' : Cluster') :
  CoreV1_Pods_Get clientset "default" "alpine-deployment-548dbddc9b-dnq9r"
    GetOptions_zero c = (answer, cl) ->
  CoreV1_Pods_Get clientset' "default" "alpine-deployment-548dbddc9b-dnq9r"
    GetOptions_zero c' = (answer', cl') ->
  stdout (trace (snd (checkSpecificPod clientset "default"
                        "alpine-deployment-548dbddc9b-dnq9r" (start c))))
  = stdout (trace (snd (checkSpecificPod clientset' "default"
                          "alpine-deployment-548dbddc9b-dnq9r" (start c')))) ->
  outcomeOf answer = outcomeOf answer'.
Proof.
  intros H H' E. unfold start in E.
  rewrite !checkSpecificPod_run', H, H' in E.
  cbn [snd trace Datatypes.app stdout] in E. rewrite !stdout_Stdout in E.
  destruct answer as [pod err], answer' as [pod' err'].
  unfold podLines, outcomeOf in *. cbn [fst snd] in *.
  destruct err as [e|], err' as [e'|];
    repeat match goal with
      | |- context [isNotFound ?x] => destruct (isNotFound x)
      | |- context [asStatusError ?x] => destruct (asStatusError x)
      end;
    try reflexivity; cbn in E; discriminate E.
Qed.

Lemma inspector_output_tells_outcome_witness :
  outcomeOf (alpine, Some notFoundError) = outcomeOf goneAnswer.
Proof.
  apply (inspector_output_tells_outcome cannedClientset cannedClientset
           (withPodAnswer (alpine, Some notFoundError)) (withPodAnswer goneAnswer)
           (cl := withPodAnswer (alpine, Some notFoundError))
           (cl' := withPodAnswer goneAnswer)).
  - reflexivity.
  - reflexivity.
  - reflexivity.
Defined.

(** ** The shape of the output *)

Lemma endsWithNewline_nl : endsWithNewline nl.
Proof. now exists ""%string. Qed.

Lemma endsWithNewline_append (a b : string) :
  endsWithNewline b -> endsWithNewline (a ++ b).
Proof.
  intros [body ->]. exists (a ++ body)%string. now rewrite append_assoc.
Qed.

Ltac ends_with_newline :=
  repeat first [ apply endsWithNewline_nl | apply endsWithNewline_append ].

Ltac not_the_separator :=
  let E := fresh "E" in intro E; cbn in E; discriminate E.

Lemma violationLines_newline (items : list PersistentVolumeClaim) :
  Forall endsWithNewline (violationLines items).
Proof.
  unfold violationLines. apply Forall_map, Forall_forall. intros p _.
  unfold violationLine. ends_with_newline.
Qed.

Lemma violationLines_not_separator (items : list PersistentVolumeClaim) :
  Forall (fun text => text <> separatorLine) (violationLines items).
Proof.
  unfold violationLines. apply Forall_map, Forall_forall. intros p _.
  unfold violationLine. not_the_separator.
Qed.

Ltac each_line tac :=
  repeat first [ apply Forall_nil | apply Forall_cons; [tac|] ].

Lemma roundTrace_newline (s : Snapshot) : Forall endsWithNewline (stdout (roundTrace s)).
Proof.
  rewrite stdout_roundTrace. destruct s as [[a1 e1] [a2 e2] [[a3] e3] [a4 e4] [a5 e5] [a6 e6]].
  unfold podsLines, namespacesLines, nodesLines, eventsLines, pvcsLines, podLines,
    foundLines, notFoundLine, statusErrorLine, otherErrorLine,
    headerLine, detailLine, separatorLine.
  cbn [podsAnswer namespacesAnswer nodesAnswer eventsAnswer pvcsAnswer podAnswer fst snd Items].
  apply Forall_cons; [ends_with_newline|].
  repeat (apply Forall_app; split).
  - destruct e1; each_line ends_with_newline.
  - destruct e2; each_line ends_with_newline.
  - destruct e3; [|destruct a3]; each_line ends_with_newline.
  - destruct e4; each_line ends_with_newline.
  - destruct e5; [each_line ends_with_newline|].
    apply Forall_cons; [ends_with_newline | apply violationLines_newline].
  - apply Forall_cons; [ends_with_newline|].
    apply Forall_app; split; [|each_line ends_with_newline].
    destruct e6 as [e|]; [destruct (isNotFound e); [|destruct (asStatusError e)]|];
      each_line ends_with_newline.
Qed.

(** X8.  Every text the process writes ends with a line feed, in every
    branch of every check and in any number of rounds, so the output is a
    sequence of whole lines whatever the server answers. *)
Theorem every_write_ends_with_newline
  (Cluster : Type) (clientset : Clientset Cluster) (n : nat) (c : Cluster) :
  Forall (fun text => exists body, text = (body ++ nl)%string)
         (stdout (trace (snd (loop n clientset (start c))))).
Proof.
  unfold start. rewrite loop_run. cbn [snd trace Datatypes.app].
  revert c. induction n as [|n IH]; intro c; [constructor|].
  cbn [roundsTrace]. rewrite stdout_app. apply Forall_app. split; [|apply IH].
  apply roundTrace_newline.
Qed.

(** X9.  The report of a round is framed: what a round writes starts with
    the header and ends with the separator, and the separator is written
    nowhere else in the round, whatever the server answers and whatever the
    texts of its errors are. *)
Theorem round_is_framed_by_header_and_separator
  (Cluster : Type) (clientset : Clientset Cluster) (c : Cluster) :
  exists body : list string,
    stdout (trace (snd (iteration clientset (start c))))
    = ("Cluster Durumu:" ++ nl)%string :: body
        ++ [ (nl ++ "-----------------------------------" ++ nl)%string ]
    /\ Forall (fun text => text <> (nl ++ "-----------------------------------" ++ nl)%string)
              (("Cluster Durumu:" ++ nl)%string :: body).
Proof.
  unfold start. rewrite iteration_run. cbn [snd trace Datatypes.app].
  rewrite stdout_roundTrace.
  set (s := fst (answers clientset c)).
  exists (podsLines (podsAnswer s)
          ++ namespacesLines (namespacesAnswer s)
          ++ nodesLines (nodesAnswer s)
          ++ eventsLines (eventsAnswer s)
          ++ pvcsLines (pvcsAnswer s)
          ++ detailLine
          :: podLines "default" "alpine-deployment-548dbddc9b-dnq9r" (podAnswer s)).
  split.
  { unfold headerLine. f_equal. rewrite <- !app_assoc. reflexivity. }
  destruct s as [[a1 e1] [a2 e2] [[a3] e3] [a4 e4] [a5 e5] [a6 e6]].
  cbn [podsAnswer namespacesAnswer nodesAnswer eventsAnswer pvcsAnswer podAnswer].
  fold separatorLine.
  unfold podsLines, namespacesLines, nodesLines, eventsLines, pvcsLines, podLines,
    foundLines, notFoundLine, statusErrorLine, otherErrorLine, headerLine, detailLine.
  cbn [fst snd Items].
  apply Forall_cons; [not_the_separator|].
  repeat (apply Forall_app; split).
  - destruct e1; each_line not_the_separator.
  - destruct e2; each_line not_the_separator.
  - destruct e3; [|destruct a3]; each_line not_the_separator.
  - destruct e4; each_line not_the_separator.
  - destruct e5; [each_line not_the_separator|].
    apply Forall_cons; [not_the_separator | apply violationLines_not_separator].
  - apply Forall_cons; [not_the_separator|].
    destruct e6 as [e|]; [destruct (isNotFound e); [|destruct (asStatusError e)]|];
      each_line not_the_separator.
Qed.
